(** * pint.unit: the Unit value type, its algebra and its compatibility engine

    A shallow embedding of [src/pint/unit.py].  Unit objects live on a heap
    (they carry a write-once dimensionality cache and are compared by
    identity in the array hook), every method is a computation in a small
    state-and-exception monad, and the collaborators whose code is outside
    [unit.py] (registry, quantity layer, formatting, compat tables) are
    either fields of the registry record or members of the [Collaborators]
    class. *)

From Stdlib Require Import QArith Ascii String List.
From stdpp Require Import base option gmap strings list fin_maps pretty.
Local Open Scope Q_scope.
Local Open Scope string_scope.

(** ** Numbers and exponent containers *)

(** A Python number is modelled by its rational value, which is exact for
    [int], [bool] and [Fraction]; [==] on numbers is [Qeq_bool].  For floats
    a sum, difference or product below stands for the one float operation
    the code performs, so the statements use of the rationals only what
    float arithmetic shares with them: one operation at a time in the order
    of the code, commutativity, [x - x = 0] and negation.  A true division
    goes through [fround]. *)
Abbreviation num := Q.

(** The class of a number.  A number of any class has a rational value; the
    class decides how [type] prints it and whether its division rounds. *)
Inductive numclass := NInt | NBool | NFloat | NFraction.

#[global] Instance numclass_eq_dec : EqDecision numclass.
Proof. solve_decision. Defined.

Definition numclass_name (c : numclass) : string :=
  match c with
  | NInt => "int"
  | NBool => "bool"
  | NFloat => "float"
  | NFraction => "fractions.Fraction"
  end.

(** Modelled from the spec: UnitsContainer (util.py is not part of the
    sources): an immutable mapping from unit name to a numeric exponent with
    multiplication (exponent addition), division (exponent subtraction),
    exponentiation (exponent scaling) and equality; zero exponents produced
    by multiplication and division are pruned by the container. *)
Abbreviation UnitsContainer := (gmap string Q).

Definition exponent (c : UnitsContainer) (k : string) : Q := default 0 (c !! k).

Definition prune (s : Q) : option Q := if Qeq_bool s 0 then None else Some s.

Definition add_exp (x y : option Q) : option Q :=
  match y with
  | None => x
  | Some v => prune (default 0 x + v)
  end.

Definition sub_exp (x y : option Q) : option Q :=
  match y with
  | None => x
  | Some v => prune (default 0 x - v)
  end.

Definition uc_mul (a b : UnitsContainer) : UnitsContainer := merge add_exp a b.
Definition uc_div (a b : UnitsContainer) : UnitsContainer := merge sub_exp a b.
Definition uc_pow (a : UnitsContainer) (n : num) : UnitsContainer :=
  (fun e => e * n) <$> a.

(** [bool(container)]: a mapping is truthy when it has at least one key. *)
Definition uc_bool (a : UnitsContainer) : bool :=
  negb (bool_decide (dom a = (∅ : gset string))).

Definition opt_Qeqb (x y : option Q) : bool :=
  match x, y with
  | Some p, Some q => Qeq_bool p q
  | None, None => true
  | _, _ => false
  end.

(** Container equality: the same names, with equal exponents. *)
Definition uc_eqb (a b : UnitsContainer) : bool :=
  forallb (fun k => opt_Qeqb (a !! k) (b !! k)) (elements (dom a ∪ dom b)).

(** ** Python values *)

Definition loc := positive.
Definition reg_id := nat.

(** Modelled from the spec: a unit-definition object (definitions.py is not
    part of the sources); only its name is kept. *)
Record UnitDefinition := { def_name : string }.

(** What a Unit stores in [_units]: [__init__] keeps a UnitsContainer or a
    UnitDefinition as it is given. *)
Inductive payload :=
| PContainer (c : UnitsContainer)
| PDefinition (d : UnitDefinition).

(** An object of a class that is not defined in [unit.py] (an array, a
    series, ...): its class name, its identity and whether it has an
    [__array_ufunc__] attribute. *)
Record foreign := {
  f_type : string;
  f_id : positive;
  f_has_array_ufunc : bool
}.

#[warnings="-register-all"] Inductive value :=
| VNone
| VNotImplemented
| VNum (c : numclass) (n : num)
| VStr (s : string)
| VTuple (vs : list value)
| VContainer (c : UnitsContainer)
| VDefinition (d : UnitDefinition)
| VUnit (l : loc)
| VQuantity (r : reg_id) (magnitude : value) (u : payload)
| VObject (o : foreign).

Abbreviation pyvalue := value.

Definition payload_value (p : payload) : value :=
  match p with
  | PContainer c => VContainer c
  | PDefinition d => VDefinition d
  end.

Inductive pytype :=
| TyNoneType
| TyNotImplementedType
| TyNumber (c : numclass)
| TyStr
| TyTuple
| TyUnitsContainer
| TyUnitDefinition
| TyUnit (r : reg_id)
| TyQuantity (r : reg_id)
| TyForeign (name : string).

#[global] Instance pytype_eq_dec : EqDecision pytype.
Proof. solve_decision. Defined.

(** The text [format] gives for [type(x)]. *)
Definition type_repr (t : pytype) : string :=
  let name :=
    match t with
    | TyNoneType => "NoneType"
    | TyNotImplementedType => "NotImplementedType"
    | TyNumber c => numclass_name c
    | TyStr => "str"
    | TyTuple => "tuple"
    | TyUnitsContainer => "pint.util.UnitsContainer"
    | TyUnitDefinition => "pint.definitions.UnitDefinition"
    | TyUnit _ => "pint.unit.build_unit_class.<locals>.Unit"
    | TyQuantity _ => "pint.quantity.build_quantity_class.<locals>.Quantity"
    | TyForeign name => name
    end in
  "<class '" ++ name ++ "'>".

(** ** Exceptions and results *)

Inductive exn :=
| TypeError (msg : string)
| ValueError (msg : string)
| AttributeError (msg : string)
| ZeroDivisionError
| DimensionalityError
| OtherError (name : string).

Inductive result (A : Type) :=
| Ok (a : A)
| Raise (e : exn).
Arguments Ok {A} a.
Arguments Raise {A} e.

(** ** Unit objects, registries and the world *)

Record UnitObj := {
  cls : reg_id;                          (* the registry-bound class *)
  _units : payload;
  __used : bool;
  _dimensionality : option UnitsContainer  (* absent until first read *)
}.

(** Modelled from the spec: an active context of a registry (context.py is
    not part of the sources), with the (source, destination) pairs of its
    transformation rules. *)
Record Context := {
  ctx_name : string;
  ctx_rules : list (string * string)
}.

(** The part of a registry that [unit.py] reads or calls.  The methods are
    functions of the registry's current tables; changing the tables is
    replacing the record. *)
Record registry := {
  _active_ctx : list Context;
  fmt_locale : option string;
  default_format : string;               (* the class attribute of its Unit class *)
  _get_dimensionality : payload -> result UnitsContainer;
  parse_units : string -> result UnitsContainer;
  _get_symbol : string -> result string
}.

(** Calls into the registry and the formatting backend, in program order. *)
Inductive call :=
| CallGetDimensionality (r : reg_id) (p : payload) (returned : bool)
| CallParseUnits (r : reg_id) (s : string)
| CallGetSymbol (r : reg_id) (name : string)
| CallBabelParse (locale : string)
| CallRender (r : reg_id) (p : payload) (spec : string).

Record world := {
  heap : gmap loc UnitObj;
  registries : reg_id -> registry;
  calls : list call
}.

(** ** The monad: state passing over the world, with exceptions.  A raised
    exception keeps the state changes made before it. *)

Definition M (A : Type) : Type := world -> result A * world.

Definition ret {A} (a : A) : M A := fun w => (Ok a, w).
Definition raise {A} (e : exn) : M A := fun w => (Raise e, w).
Definition bind {A B} (m : M A) (f : A -> M B) : M B :=
  fun w => match m w with
           | (Ok a, w') => f a w'
           | (Raise e, w') => (Raise e, w')
           end.
Definition lift {A} (r : result A) : M A := fun w => (r, w).
Definition get_world : M world := fun w => (Ok w, w).

#[global] Instance M_ret : MRet M := @ret.
#[global] Instance M_bind : MBind M := fun A B f m => bind m f.

Definition log (c : call) : M unit :=
  fun w => (Ok tt, {| heap := heap w; registries := registries w;
                      calls := calls w ++ [c] |}).

Definition get_unit (l : loc) : M UnitObj :=
  fun w => match heap w !! l with
           | Some o => (Ok o, w)
           | None => (Raise (OtherError "dangling reference"), w)
           end.

Definition get_registry (r : reg_id) : M registry :=
  fun w => (Ok (registries w r), w).

(** The world with the object [o] at the address [l]. *)
Definition store (l : loc) (o : UnitObj) (w : world) : world :=
  {| heap := <[l := o]> (heap w); registries := registries w; calls := calls w |}.

(** Object creation: a fresh address. *)
Definition alloc (o : UnitObj) : M loc :=
  fun w => let l := fresh (dom (heap w)) in (Ok l, store l o w).

(** A Unit as [__init__] leaves it: [__used] false, no cached
    dimensionality. *)
Definition fresh_unit (r : reg_id) (p : payload) : UnitObj :=
  {| cls := r; _units := p; __used := false; _dimensionality := None |}.

(** [self._dimensionality = dim] *)
Definition set_dimensionality (l : loc) (d : UnitsContainer) : M unit :=
  fun w => (Ok tt,
            {| heap := alter (fun o => {| cls := cls o; _units := _units o;
                                          __used := __used o;
                                          _dimensionality := Some d |}) l (heap w);
               registries := registries w; calls := calls w |}).

(** [try: m except e: h e] *)
Definition try_except {A} (m : M A) (h : exn -> M A) : M A :=
  fun w => match m w with
           | (Raise e, w') => h e w'
           | r => r
           end.

(** ** Strings *)

Fixpoint str_contains (c : ascii) (s : string) : bool :=
  match s with
  | EmptyString => false
  | String a s' => if Ascii.eqb a c then true else str_contains c s'
  end.

(** [s.replace(c, "")] *)
Fixpoint str_remove (c : ascii) (s : string) : string :=
  match s with
  | EmptyString => EmptyString
  | String a s' => if Ascii.eqb a c then str_remove c s' else String a (str_remove c s')
  end.

(** Truth value of a tuple, list or stack: it has an element. *)
Definition nonempty {A} (l : list A) : bool :=
  match l with
  | [] => false
  | _ :: _ => true
  end.

(** Modelled from the spec: [bool(registry._active_ctx)].  The chain of
    the active contexts (context.py) is a chain of mappings, one per
    context, from the pairs of its rules; as a mapping it is true when one
    of them is not empty, so that it is false both with no active context
    and with active contexts that have no rule. *)
Definition active_truth (chain : list Context) : bool :=
  existsb (fun ctx => nonempty (ctx_rules ctx)) chain.

Definition tilde : ascii := "~"%char.

(** The error of [format_babel] when no locale can be resolved. *)
Definition missing_locale : exn :=
  ValueError "Provide a `locale` value to localize translation.".

(** ** Collaborators outside unit.py *)

Record ufunc := { ufunc_name : string }.

Abbreviation kwargs := (list (string * value)).

(** [kwspec[key] = v] *)
Fixpoint kw_set (key : string) (v : value) (kw : kwargs) : kwargs :=
  match kw with
  | [] => [(key, v)]
  | (k, x) :: rest => if String.eqb k key then (k, v) :: rest
                      else (k, x) :: kw_set key v rest
  end.

(** The methods and tables [unit.py] calls that are defined in other modules
    (quantity.py, util.py, definitions.py, formatting.py, compat.py) and the
    operators of objects of other classes.  They read the world and return
    or raise. *)
Class Collaborators := {
  (* SharedRegistryObject._check on a Unit or Quantity of another registry *)
  check_foreign : result bool;
  (* Quantity: q.to(other, *contexts, **kw), q * x, q / x, x == q,
     q.dimensionality *)
  quantity_to : world -> value -> value -> list value -> kwargs -> result value;
  quantity_mul : world -> value -> value -> result value;
  quantity_truediv : world -> value -> value -> result value;
  quantity_req : world -> value -> value -> result bool;
  quantity_dimensionality : world -> value -> result UnitsContainer;
  (* operators applied to a UnitDefinition or between a container and
     something that is not a container *)
  definition_binop : string -> value -> value -> result value;
  definition_items : UnitDefinition -> result (list (string * num));
  container_eq : payload -> value -> result bool;
  (* 1 / x and x * unit for x of a class not defined here; None is
     NotImplemented *)
  one_over : world -> value -> result value;
  left_mul : world -> value -> loc -> option (result value);
  object_magnitude : foreign -> result value;
  py_str : world -> value -> result string;
  (* formatting.py, compat.py *)
  extract_custom_flags : string -> string;
  babel_parse : string -> result value;
  container_format_babel : registry -> payload -> string -> kwargs -> result string;
  is_upcast_type : pytype -> bool;
  quantity_has_array_ufunc : bool;
  (* compat.py: the classes of NUMERIC_TYPES other than the plain numbers
     (the array class, when numpy is installed) *)
  numeric_types : string -> bool;
  (* the float nearest to a rational: what float arithmetic returns *)
  fround : Q -> Q;
  (* calling a numpy ufunc *)
  ufunc_call : world -> ufunc -> list value -> kwargs -> result value
}.

Section Unit.
Context `{Collaborators}.

(** Calling a collaborator on the current world. *)
Definition ask {A} (f : world -> result A) : M A := fun w => (f w, w).

Definition type_of (v : value) : M pytype :=
  match v with
  | VNone => mret TyNoneType
  | VNotImplemented => mret TyNotImplementedType
  | VNum c _ => mret (TyNumber c)
  | VStr _ => mret TyStr
  | VTuple _ => mret TyTuple
  | VContainer _ => mret TyUnitsContainer
  | VDefinition _ => mret TyUnitDefinition
  | VUnit l => o ← get_unit l; mret (TyUnit (cls o))
  | VQuantity r _ _ => mret (TyQuantity r)
  | VObject o => mret (TyForeign (f_type o))
  end.

(** [isinstance(x, NUMERIC_TYPES)]: a plain number, or an object of one of
    the other classes of the tuple. *)
Definition is_numeric (x : value) : bool :=
  match x with
  | VNum _ _ => true
  | VObject o => numeric_types (f_type o)
  | _ => false
  end.

(** Modelled from the spec: SharedRegistryObject._check (util.py is not part
    of the sources): true for a Unit or Quantity bound to the registry of
    [self], false for numbers, strings, containers and other objects; what
    it does for an object of another registry is [check_foreign]. *)
Definition _check (self : loc) (other : value) : M bool :=
  o ← get_unit self;
  match other with
  | VUnit l' =>
      o' ← get_unit l';
      if Nat.eqb (cls o) (cls o') then mret true else lift check_foreign
  | VQuantity r _ _ =>
      if Nat.eqb (cls o) r then mret true else lift check_foreign
  | _ => mret false
  end.

(** [self._REGISTRY.parse_units(s)]: the registry parses the text and wraps
    the container in a Unit of its class. *)
Definition registry_parse_units (r : reg_id) (s : string) : M loc :=
  reg ← get_registry r;
  log (CallParseUnits r s);;
  c ← lift (parse_units reg s);
  alloc (fresh_unit r (PContainer c)).

(** [Unit.__init__], with the object creation of [cls(units)]. *)
Definition __init__ (r : reg_id) (units : value) : M loc :=
  match units with
  | VContainer c =>
      alloc (fresh_unit r (PContainer c))
  | VDefinition d =>
      alloc (fresh_unit r (PDefinition d))
  | VStr s =>
      l' ← registry_parse_units r s;
      o' ← get_unit l';
      alloc (fresh_unit r (_units o'))
  | VUnit l' =>
      o' ← get_unit l';
      alloc (fresh_unit r (_units o'))
  | _ =>
      t ← type_of units;
      raise (TypeError ("units must be of type str, Unit or UnitsContainer; not "
                        ++ type_repr t ++ "."))
  end.

(** [self._REGISTRY._get_dimensionality(p)] *)
Definition registry_get_dimensionality (r : reg_id) (p : payload) : M UnitsContainer :=
  reg ← get_registry r;
  match _get_dimensionality reg p with
  | Ok d => log (CallGetDimensionality r p true);; mret d
  | Raise e => log (CallGetDimensionality r p false);; raise e
  end.

(** The [dimensionality] property. *)
Definition dimensionality (self : loc) : M UnitsContainer :=
  o ← get_unit self;
  match _dimensionality o with
  | Some d => mret d
  | None =>
      dim ← registry_get_dimensionality (cls o) (_units o);
      set_dimensionality self dim;;
      o' ← get_unit self;
      match _dimensionality o' with
      | Some d => mret d
      | None => raise (AttributeError "_dimensionality")
      end
  end.

(** The [dimensionless] property. *)
Definition dimensionless (self : loc) : M bool :=
  d ← dimensionality self;
  mret (negb (uc_bool d)).

(** [self._REGISTRY.Quantity(m, units)] *)
Definition Quantity (r : reg_id) (m : value) (units : payload) : value :=
  VQuantity r m units.

(** Operators on what [_units] holds. *)
Definition units_mul (p q : payload) : M value :=
  match p, q with
  | PContainer a, PContainer b => mret (VContainer (uc_mul a b))
  | _, _ => lift (definition_binop "__mul__" (payload_value p) (payload_value q))
  end.

Definition units_truediv (p q : payload) : M value :=
  match p, q with
  | PContainer a, PContainer b => mret (VContainer (uc_div a b))
  | _, _ => lift (definition_binop "__truediv__" (payload_value p) (payload_value q))
  end.

Definition units_pow (p : payload) (x : value) : M value :=
  match p, x with
  | PContainer a, VNum _ n => mret (VContainer (uc_pow a n))
  | _, _ => lift (definition_binop "__pow__" (payload_value p) x)
  end.

Definition units_eq (p : payload) (v : value) : M bool :=
  match p, v with
  | PContainer a, VContainer b => mret (uc_eqb a b)
  | _, _ => lift (container_eq p v)
  end.

(** [isinstance(other, self.__class__)] *)
Definition isinstance_class (r : reg_id) (other : value) : M bool :=
  match other with
  | VUnit l' => o' ← get_unit l'; mret (Nat.eqb (cls o') r)
  | _ => mret false
  end.

Definition __mul__ (self : loc) (other : value) : M value :=
  o ← get_unit self;
  chk ← _check self other;
  if chk : bool then
    same ← isinstance_class (cls o) other;
    match same : bool, other with
    | true, VUnit l' =>
        o' ← get_unit l';
        u ← units_mul (_units o) (_units o');
        l ← __init__ (cls o) u;
        mret (VUnit l)
    | _, _ =>
        let qself := Quantity (cls o) (VNum NInt 1) (_units o) in
        ask (fun w => quantity_mul w qself other)
    end
  else
    match other with
    | VNum c n =>
        if Qeq_bool n 1 then mret (Quantity (cls o) other (_units o))
        else ask (fun w => quantity_mul w (Quantity (cls o) (VNum NInt 1) (_units o)) other)
    | _ => ask (fun w => quantity_mul w (Quantity (cls o) (VNum NInt 1) (_units o)) other)
    end.

Definition __rmul__ := __mul__.

(** [v * self] for a left operand [v]: the operator of the class of [v]
    first; numbers, strings, tuples and the like return NotImplemented for a
    Unit, and the reflected handler of the Unit takes over. *)
Definition py_mul (v : value) (self : loc) : M value :=
  match v with
  | VUnit l' => __mul__ l' (VUnit self)
  | VQuantity _ _ _ => ask (fun w => quantity_mul w v (VUnit self))
  | VContainer _ | VDefinition _ | VObject _ =>
      r ← ask (fun w => Ok (left_mul w v self));
      match r : option (result value) with
      | Some res => lift res
      | None => __rmul__ self v
      end
  | _ => __rmul__ self v
  end.

Definition __rtruediv__ (self : loc) (other : value) : M value :=
  o ← get_unit self;
  if is_numeric other then
    inv ← match _units o with
          | PContainer a => mret (VContainer (uc_pow a (-1 # 1)))
          | PDefinition _ =>
              lift (definition_binop "__rtruediv__" (payload_value (_units o)) (VNum NInt 1))
          end;
    match inv : value with
    | VContainer c => mret (Quantity (cls o) other (PContainer c))
    | VDefinition d => mret (Quantity (cls o) other (PDefinition d))
    | _ => raise (TypeError "Quantity units")
    end
  else
    match other with
    | VContainer c =>
        u ← units_truediv (PContainer c) (_units o);
        l ← __init__ (cls o) u;
        mret (VUnit l)
    | _ => mret VNotImplemented
    end.

(** [1 / n] for a number: the true division of Python.  It is exact for a
    Fraction and gives the nearest float for the other classes; dividing by
    zero raises. *)
Definition one_over_number (c : numclass) (n : num) : value :=
  match c with
  | NFraction => VNum NFraction (1 / n)
  | _ => VNum NFloat (fround (1 / n))
  end.

(** [1 / other] *)
Definition py_one_over (other : value) : M value :=
  match other with
  | VNum c n => if Qeq_bool n 0 then raise ZeroDivisionError
                else mret (one_over_number c n)
  | VUnit l' => __rtruediv__ l' (VNum NInt 1)
  | _ => ask (fun w => one_over w other)
  end.

Definition __truediv__ (self : loc) (other : value) : M value :=
  o ← get_unit self;
  chk ← _check self other;
  if chk : bool then
    same ← isinstance_class (cls o) other;
    match same : bool, other with
    | true, VUnit l' =>
        o' ← get_unit l';
        u ← units_truediv (_units o) (_units o');
        l ← __init__ (cls o) u;
        mret (VUnit l)
    | _, _ =>
        qself ← py_mul (VNum NInt 1) self;
        ask (fun w => quantity_truediv w qself other)
    end
  else
    inv ← py_one_over other;
    mret (Quantity (cls o) inv (_units o)).

Definition __pow__ (self : loc) (other : value) : M value :=
  o ← get_unit self;
  if is_numeric other then
    u ← units_pow (_units o) other;
    l ← __init__ (cls o) u;
    mret (VUnit l)
  else
    t ← type_of other;
    let mess := "Cannot power Unit by " ++ type_repr t in
    raise (TypeError mess).

Definition __eq__ (self : loc) (other : value) : M bool :=
  o ← get_unit self;
  chk ← _check self other;
  if chk : bool then
    same ← isinstance_class (cls o) other;
    match same : bool, other with
    | true, VUnit l' =>
        o' ← get_unit l';
        units_eq (_units o) (payload_value (_units o'))
    | _, _ =>
        ask (fun w => quantity_req w other (Quantity (cls o) (VNum NInt 1) (_units o)))
    end
  else if is_numeric other then
    ask (fun w => quantity_req w other (Quantity (cls o) (VNum NInt 1) (_units o)))
  else units_eq (_units o) other.

Definition __ne__ (self : loc) (other : value) : M bool :=
  b ← __eq__ self other;
  mret (negb b).

(** The container of symbols built for the short form:
    [UnitsContainer(dict((_get_symbol(key), value) for key, value in items))];
    a later pair replaces an earlier one with the same symbol. *)
Fixpoint symbol_items (r : reg_id) (items : list (string * num))
    (acc : UnitsContainer) : M UnitsContainer :=
  match items with
  | [] => mret acc
  | (key, v) :: rest =>
      reg ← get_registry r;
      log (CallGetSymbol r key);;
      sym ← lift (_get_symbol reg key);
      symbol_items r rest (<[sym := v]> acc)
  end.

Definition units_items (p : payload) : M (list (string * num)) :=
  match p with
  | PContainer c => mret (map_to_list c)
  | PDefinition d => lift (definition_items d)
  end.

Definition format_babel (self : loc) (spec : string) (locale : option string)
    (kwspec : kwargs) : M string :=
  o ← get_unit self;
  reg ← get_registry (cls o);
  let spec := if String.eqb spec "" then extract_custom_flags (default_format reg)
              else spec in
  let finish (units : payload) (spec : string) : M string :=
    reg ← get_registry (cls o);
    let locale := match locale with
                  | None => fmt_locale reg
                  | Some l => Some l
                  end in
    match locale with
    | None => raise missing_locale
    | Some l =>
        log (CallBabelParse l);;
        parsed ← lift (babel_parse l);
        let kwspec := kw_set "locale" parsed kwspec in
        log (CallRender (cls o) units spec);;
        lift (container_format_babel reg units spec kwspec)
    end in
  if str_contains tilde spec then
    dl ← dimensionless self;
    if dl : bool then mret ""
    else
      items ← units_items (_units o);
      units ← symbol_items (cls o) items ∅;
      finish (PContainer units) (str_remove tilde spec)
  else finish (_units o) spec.

(** [q.to(other, *contexts, **ctx_kwargs)] on the value [q]. *)
Definition call_to (q other : value) (contexts : list value) (kw : kwargs) : M value :=
  match q with
  | VQuantity _ _ _ => ask (fun w => quantity_to w q other contexts kw)
  | _ => raise (AttributeError "to")
  end.

Definition is_compatible_with (self : loc) (other : value)
    (contexts : list value) (ctx_kwargs : kwargs) : M bool :=
  o ← get_unit self;
  reg ← get_registry (cls o);
  if nonempty contexts || active_truth (_active_ctx reg) then
    try_except
      (q ← py_mul (VNum NInt 1) self;
       call_to q other contexts ctx_kwargs;;
       mret true)
      (fun e => match e with
                | DimensionalityError => mret false
                | _ => raise e
                end)
  else
    match other with
    | VQuantity _ _ _ =>
        d1 ← dimensionality self;
        d2 ← ask (fun w => quantity_dimensionality w other);
        mret (uc_eqb d1 d2)
    | VUnit l' =>
        d1 ← dimensionality self;
        d2 ← dimensionality l';
        mret (uc_eqb d1 d2)
    | VStr s =>
        d1 ← dimensionality self;
        u ← registry_parse_units (cls o) s;
        d2 ← dimensionality u;
        mret (uc_eqb d1 d2)
    | _ => dimensionless self
    end.

(** [hasattr(arg, "__array_ufunc__")] *)
Definition has_array_ufunc (arg : value) : bool :=
  match arg with
  | VUnit _ => true
  | VQuantity _ _ _ => quantity_has_array_ufunc
  | VObject o => f_has_array_ufunc o
  | _ => false
  end.

(** [arg is self] *)
Definition is_ (arg : value) (self : loc) : bool :=
  match arg with
  | VUnit l => Pos.eqb l self
  | _ => false
  end.

Fixpoint types_of (args : list value) : M (list pytype) :=
  match args with
  | [] => mret []
  | a :: rest => t ← type_of a; ts ← types_of rest; mret (t :: ts)
  end.

Definition handled_ufuncs : list string :=
  ["true_divide"; "divide"; "floor_divide"; "multiply"].

Definition __array_ufunc__ (self : loc) (uf : ufunc) (method : string)
    (inputs : list value) (kw : kwargs) : M value :=
  o ← get_unit self;
  if negb (String.eqb method "__call__") then mret VNotImplemented
  else
    types ← types_of (List.filter has_array_ufunc (inputs ++ map snd kw)%list);
    if existsb is_upcast_type types then mret VNotImplemented
    else if bool_decide (ufunc_name uf ∈ handled_ufuncs) then
      let args := map (fun arg => if is_ arg self
                                  then Quantity (cls o) (VNum NInt 1) (_units o)
                                  else arg) inputs in
      ask (fun w => ufunc_call w uf args kw)
    else mret VNotImplemented.

(** ["%s must be a Quantity" % value]: a tuple on the right of [%] is the
    argument list of the format. *)
Definition percent_must_be_quantity (v : value) : M string :=
  match v with
  | VTuple [] => raise (TypeError "not enough arguments for format string")
  | VTuple [x] => s ← ask (fun w => py_str w x); mret (s ++ " must be a Quantity")
  | VTuple _ =>
      raise (TypeError "not all arguments converted during string formatting")
  | _ => s ← ask (fun w => py_str w v); mret (s ++ " must be a Quantity")
  end.

(** [Quantity(1, value)] for a Unit or Quantity [value]. *)
Definition quantity_of (r : reg_id) (v : value) : M value :=
  match v with
  | VUnit l' => o' ← get_unit l'; mret (Quantity r (VNum NInt 1) (_units o'))
  | VQuantity _ _ u => mret (Quantity r (VNum NInt 1) u)
  | _ => raise (TypeError "Quantity units")
  end.

Definition from_ (self : loc) (value : pyvalue) (strict : bool) (name : string) : M pyvalue :=
  o ← get_unit self;
  chk ← _check self value;
  if chk : bool then
    q ← match value with
        | VQuantity r _ _ =>
            if Nat.eqb r (cls o) then mret value else quantity_of (cls o) value
        | _ => quantity_of (cls o) value
        end;
    call_to q (VUnit self) [] []
  else if strict then
    msg ← percent_must_be_quantity value;
    raise (ValueError msg)
  else py_mul value self.

(** [x.magnitude] *)
Definition get_magnitude (x : value) : M value :=
  match x with
  | VQuantity _ m _ => mret m
  | VObject o => lift (object_magnitude o)
  | _ => raise (AttributeError "magnitude")
  end.

Definition m_from (self : loc) (value : pyvalue) (strict : bool) (name : string) : M pyvalue :=
  x ← from_ self value strict name;
  get_magnitude x.

(** ** The lifetime of one instance

    What can happen to a Unit between its creation and its end, as far as
    its dimensionality is concerned: the property is read, directly or
    through [dimensionless], and the tables of the registries change. *)

Inductive event :=
| EvRead
| EvDimensionless
| EvRegistries (rs : reg_id -> registry).

Definition set_registries (rs : reg_id -> registry) : M unit :=
  fun w => (Ok tt, {| heap := heap w; registries := rs; calls := calls w |}).

(** Runs the events on the instance [self]; returns what each [EvRead]
    returned, in order, and the final world. *)
Fixpoint run (self : loc) (evs : list event) (w : world)
    : list (result UnitsContainer) * world :=
  match evs with
  | [] => ([], w)
  | EvRead :: rest =>
      let '(r, w1) := dimensionality self w in
      let '(rs, w2) := run self rest w1 in
      (r :: rs, w2)
  | EvDimensionless :: rest =>
      let '(_, w1) := dimensionless self w in
      run self rest w1
  | EvRegistries rs :: rest =>
      let '(_, w1) := set_registries rs w in
      run self rest w1
  end.

End Unit.

(** The calls of the dimension reduction that returned a value. *)
Definition returned_reduction (c : call) : bool :=
  match c with
  | CallGetDimensionality _ _ true => true
  | _ => false
  end.

Definition reductions (cs : list call) : nat :=
  length (List.filter (fun c => match c with
                                | CallGetDimensionality _ _ _ => true
                                | _ => false
                                end) cs).

Definition returned_reductions (cs : list call) : nat :=
  length (List.filter returned_reduction cs).

(** Calls that render or parse a locale. *)
Definition rendering (c : call) : bool :=
  match c with
  | CallBabelParse _ | CallRender _ _ _ => true
  | _ => false
  end.

(** The cache slot of the instance at [l]. *)
Definition cached (w : world) (l : loc) : option UnitsContainer :=
  heap w !! l ≫= _dimensionality.

(** A value whose reference, if it is one, points to an object. *)
Definition bound (w : world) (v : value) : Prop :=
  match v with
  | VUnit l => is_Some (heap w !! l)
  | _ => True
  end.

(** [w'] is [w] after calls that neither render nor parse a locale, with the
    same registries. *)
Definition quiet (w w' : world) : Prop :=
  registries w' = registries w
  /\ exists ext, calls w' = (calls w ++ ext)%list
                 /\ Forall (fun c => rendering c = false) ext.

(** ** A small registry and quantity layer

    Concrete collaborators on which the methods can be run. *)
Module Demo.

(** Modelled from the spec: the registry's dimension tables (the registry is
    not part of the sources): every defined unit name has a dimensionality
    in fundamental dimensions and a factor to its base unit; radian is a
    named unit without dimension. *)
Definition dim_table : gmap string UnitsContainer :=
  {[ "meter" := {[ "[length]" := 1 ]};
     "kilometer" := {[ "[length]" := 1 ]};
     "foot" := {[ "[length]" := 1 ]};
     "second" := {[ "[time]" := 1 ]};
     "radian" := ∅ ]}.

Definition factor_table : gmap string Q :=
  {[ "meter" := 1; "kilometer" := 1000 # 1; "foot" := 381 # 1250;
     "second" := 1; "radian" := 1 ]}.

Definition symbol_table : gmap string string :=
  {[ "meter" := "m"; "kilometer" := "km"; "foot" := "ft"; "second" := "s";
     "radian" := "rad" ]}.

Definition undefined_unit {A} : result A := Raise (OtherError "UndefinedUnitError").

(** Modelled from the spec: the registry's dimension reduction: the product
    of the dimensionalities of the names, each raised to its exponent. *)
Fixpoint reduce (items : list (string * num)) : result UnitsContainer :=
  match items with
  | [] => Ok ∅
  | (name, e) :: rest =>
      match dim_table !! name, reduce rest with
      | Some d, Ok acc => Ok (uc_mul (uc_pow d e) acc)
      | None, _ => undefined_unit
      | _, Raise err => Raise err
      end
  end.

Definition get_dimensionality (p : payload) : result UnitsContainer :=
  match p with
  | PContainer c => reduce (map_to_list c)
  | PDefinition _ => undefined_unit
  end.

(** Modelled from the spec: parsing of unit text by the registry, for the
    empty text and for a single defined name. *)
Definition parse (s : string) : result UnitsContainer :=
  if String.eqb s "" then Ok ∅
  else match dim_table !! s with
       | Some _ => Ok {[ s := 1 ]}
       | None => undefined_unit
       end.

Definition get_symbol (name : string) : result string :=
  match symbol_table !! name with
  | Some s => Ok s
  | None => undefined_unit
  end.

Definition reg : registry :=
  {| _active_ctx := []; fmt_locale := None; default_format := "";
     _get_dimensionality := get_dimensionality; parse_units := parse;
     _get_symbol := get_symbol |}.

(** The same registry inside a [with registry.context("sp")] block. *)
Definition reg_in_context : registry :=
  {| _active_ctx := [ {| ctx_name := "sp";
                         ctx_rules := [("[length]", "[time]")] |} ];
     fmt_locale := None; default_format := "";
     _get_dimensionality := get_dimensionality; parse_units := parse;
     _get_symbol := get_symbol |}.

(** The same registry inside the block of a context that has no rule. *)
Definition reg_in_bare_context : registry :=
  {| _active_ctx := [ {| ctx_name := "bare"; ctx_rules := [] |} ];
     fmt_locale := None; default_format := "";
     _get_dimensionality := get_dimensionality; parse_units := parse;
     _get_symbol := get_symbol |}.

(** The registry after its unit definitions were dropped. *)
Definition reg_emptied : registry :=
  {| _active_ctx := []; fmt_locale := None; default_format := "";
     _get_dimensionality := fun _ => undefined_unit;
     parse_units := fun _ => undefined_unit;
     _get_symbol := fun _ => undefined_unit |}.

(** The factor of a product of units with integer exponents. *)
Fixpoint factor (items : list (string * num)) : result Q :=
  match items with
  | [] => Ok 1
  | (name, e) :: rest =>
      match factor_table !! name, factor rest with
      | Some f, Ok acc => Ok (Qred (Qpower f (Qnum e) * acc))
      | None, _ => undefined_unit
      | _, Raise err => Raise err
      end
  end.

Definition units_of (w : world) (v : value) : result UnitsContainer :=
  match v with
  | VUnit l => match heap w !! l with
               | Some {| _units := PContainer c |} => Ok c
               | _ => undefined_unit
               end
  | VQuantity _ _ (PContainer c) => Ok c
  | VContainer c => Ok c
  | VStr s => parse s
  | _ => undefined_unit
  end.

(** Modelled from the spec: Quantity.to (quantity.py is not part of the
    sources): converts the magnitude into the target unit and raises the
    dimensionality-mismatch signal when the dimensionalities differ. *)
Definition to (w : world) (q other : value) (contexts : list value) (kw : kwargs)
    : result value :=
  match q with
  | VQuantity r (VNum _ m) (PContainer src) =>
      match units_of w other with
      | Ok dst =>
          match reduce (map_to_list src), reduce (map_to_list dst),
                factor (map_to_list src), factor (map_to_list dst) with
          | Ok d1, Ok d2, Ok f1, Ok f2 =>
              if uc_eqb d1 d2
              then Ok (VQuantity r (VNum NFloat (Qred (m * f1 / f2))) (PContainer dst))
              else Raise DimensionalityError
          | _, _, _, _ => undefined_unit
          end
      | Raise e => Raise e
      end
  | _ => Raise (TypeError "to")
  end.

(** Modelled from the spec: the product and quotient of a quantity and a
    plain number scale the magnitude. *)
Definition mul (w : world) (q x : value) : result value :=
  match q, x with
  | VQuantity r (VNum _ m) u, VNum c n => Ok (VQuantity r (VNum c (Qred (m * n))) u)
  | _, _ => Raise (TypeError "unsupported operand type(s) for *")
  end.

Definition truediv (w : world) (q x : value) : result value :=
  match q, x with
  | VQuantity r (VNum _ m) u, VNum _ n =>
      if Qeq_bool n 0 then Raise ZeroDivisionError
      else Ok (VQuantity r (VNum NFloat (Qred (m / n))) u)
  | _, _ => Raise (TypeError "unsupported operand type(s) for /")
  end.

(** The array objects of the examples are one-element arrays that hold the
    number 1. *)
Definition is_array (o : foreign) : bool := String.eqb (f_type o) "numpy.ndarray".

(** Modelled from the spec: equality of a plain number with a quantity
    holds exactly when the quantity is dimensionless and its magnitude
    equals the number; an array is compared by its element. *)
Definition req (w : world) (other q : value) : result bool :=
  match other, q with
  | VNum _ n, VQuantity r (VNum _ m) u =>
      match _get_dimensionality (registries w r) u with
      | Ok d => Ok (negb (uc_bool d) && Qeq_bool m n)
      | Raise e => Raise e
      end
  | VObject o, VQuantity r (VNum _ m) u =>
      match _get_dimensionality (registries w r) u with
      | Ok d => Ok (is_array o && negb (uc_bool d) && Qeq_bool m 1)
      | Raise e => Raise e
      end
  | _, _ => Ok false
  end.

(** Modelled from the spec: a unit-definition object has no arithmetic
    operator, so that Python raises a TypeError for it; the power of a
    container by an array scales the exponents by its element. *)
Definition binop (op : string) (x y : value) : result value :=
  match x, y with
  | VContainer a, VObject o =>
      if String.eqb op "__pow__" && is_array o then Ok (VContainer (uc_pow a 1))
      else Raise (TypeError "unsupported operand type(s)")
  | _, _ => Raise (TypeError "unsupported operand type(s)")
  end.

Definition q_dimensionality (w : world) (q : value) : result UnitsContainer :=
  match q with
  | VQuantity r _ u => _get_dimensionality (registries w r) u
  | _ => Raise (AttributeError "dimensionality")
  end.

Definition str (w : world) (v : value) : result string :=
  match v with
  | VStr s => Ok s
  | VNum _ n => Ok (if Pos.eqb (Qden n) 1 then pretty (Qnum n)
                  else pretty (Qnum n) ++ "/" ++ pretty (Zpos (Qden n)))
  | VNone => Ok "None"
  | _ => Ok "<object>"
  end.

(** Modelled from the spec: the upcast types the registry recognizes; here
    the series and data-array classes. *)
Definition upcast (t : pytype) : bool :=
  match t with
  | TyForeign name =>
      String.eqb name "pandas.Series" || String.eqb name "xarray.DataArray"
  | _ => false
  end.

(** A ufunc that returns the positional and the keyword operands it was
    called with. *)
Definition echo (w : world) (uf : ufunc) (args : list value) (kw : kwargs)
    : result value :=
  Ok (VTuple [VStr (ufunc_name uf); VTuple args; VTuple (map snd kw)]).

(** The collaborators of the examples.  The array class is the one other
    class of NUMERIC_TYPES; the examples divide only where the float
    quotient is exact, so that rounding is the identity on them. *)
#[local] Instance collaborators : Collaborators :=
  {| check_foreign :=
       Raise (ValueError "Cannot operate with objects of different registries.");
     quantity_to := to;
     quantity_mul := mul;
     quantity_truediv := truediv;
     quantity_req := req;
     quantity_dimensionality := q_dimensionality;
     definition_binop := binop;
     definition_items := fun _ => Raise (AttributeError "items");
     container_eq := fun _ _ => Ok false;
     one_over := fun _ _ => Raise (TypeError "unsupported operand type(s) for /");
     left_mul := fun _ _ _ => None;
     object_magnitude := fun _ => Raise (AttributeError "magnitude");
     py_str := str;
     extract_custom_flags := fun s => s;
     babel_parse := fun l => Ok (VStr l);
     container_format_babel := fun _ _ _ _ => Ok "<rendered>";
     is_upcast_type := upcast;
     quantity_has_array_ufunc := true;
     numeric_types := fun name => String.eqb name "numpy.ndarray";
     fround := Qred;
     ufunc_call := echo |}.

Definition unit_of (c : UnitsContainer) : UnitObj := fresh_unit 0%nat (PContainer c).

Definition meter : loc := 1%positive.
Definition foot : loc := 2%positive.
Definition second : loc := 3%positive.
Definition none : loc := 4%positive.      (* Unit('') *)
Definition radian : loc := 5%positive.
Definition kilometer : loc := 6%positive.
Definition furlong : loc := 7%positive.   (* a name the registry does not define *)

Definition units : gmap loc UnitObj :=
  {[ meter := unit_of {[ "meter" := 1 ]};
     foot := unit_of {[ "foot" := 1 ]};
     second := unit_of {[ "second" := 1 ]};
     none := unit_of ∅;
     radian := unit_of {[ "radian" := 1 ]};
     kilometer := unit_of {[ "kilometer" := 1 ]};
     furlong := unit_of {[ "furlong" := 1 ]} ]}.

Definition w0 : world := {| heap := units; registries := fun _ => reg; calls := [] |}.

Definition w_ctx : world :=
  {| heap := units; registries := fun _ => reg_in_context; calls := [] |}.

Definition w_bare : world :=
  {| heap := units; registries := fun _ => reg_in_bare_context; calls := [] |}.

Definition multiply : ufunc := {| ufunc_name := "multiply" |}.
Definition add : ufunc := {| ufunc_name := "add" |}.

(** An object of an upcast class that has no [__array_ufunc__] attribute. *)
Definition bare_series : foreign :=
  {| f_type := "pandas.Series"; f_id := 1; f_has_array_ufunc := false |}.
Definition series : foreign :=
  {| f_type := "pandas.Series"; f_id := 2; f_has_array_ufunc := true |}.

(** A one-element array that holds 1. *)
Definition ones : foreign :=
  {| f_type := "numpy.ndarray"; f_id := 3; f_has_array_ufunc := true |}.

Definition meter_definition : UnitDefinition := {| def_name := "meter" |}.

End Demo.

(** ** Further methods of Unit *)

(** What [__format__] calls in formatting.py, and the truth value of a
    unit-definition object. *)
Class Formatter := {
  format_unit : registry -> payload -> string -> result string;
  definition_truth : UnitDefinition -> bool
}.

(** [ret.__used = b] *)
Definition set_used (l : loc) (b : bool) : M unit :=
  fun w => (Ok tt,
            {| heap := alter (fun o => {| cls := cls o; _units := _units o;
                                          __used := b;
                                          _dimensionality := _dimensionality o |})
                         l (heap w);
               registries := registries w; calls := calls w |}).

Section MoreUnit.
Context `{Collaborators} `{Formatter}.

(** The [debug_used] property. *)
Definition debug_used (self : loc) : M bool :=
  o ← get_unit self;
  mret (__used o).

Definition __copy__ (self : loc) : M loc :=
  o ← get_unit self;
  ret_ ← __init__ (cls o) (payload_value (_units o));
  set_used ret_ (__used o);;
  mret ret_.

(** [bool(self._units)] *)
Definition units_truth (p : payload) : bool :=
  match p with
  | PContainer c => uc_bool c
  | PDefinition d => definition_truth d
  end.

Definition __format__ (self : loc) (spec : string) : M string :=
  o ← get_unit self;
  reg ← get_registry (cls o);
  let spec := extract_custom_flags
                (if String.eqb spec "" then default_format reg else spec) in
  let finish (units : payload) (spec : string) : M string :=
    reg ← get_registry (cls o);
    log (CallRender (cls o) units spec);;
    lift (format_unit reg units spec) in
  if str_contains tilde spec then
    if negb (units_truth (_units o)) then mret ""
    else
      items ← units_items (_units o);
      units ← symbol_items (cls o) items ∅;
      finish (PContainer units) (str_remove tilde spec)
  else finish (_units o) spec.

(** [str(unit)] is [format(unit)], the format with the empty spec. *)
Definition __str__ (self : loc) : M string := __format__ self "".

End MoreUnit.

(** Modelled from the spec: a unit system of the registry (systems.py is not
    part of the sources); only its member names are read. *)
Record System := { members : gset string }.

Section Systems.
(** The table [registry._systems] of each registry, and the names a
    unit-definition object gives for [keys()]. *)
Variable _systems : reg_id -> gmap string System.
Variable definition_keys : UnitDefinition -> result (list string).

Definition units_keys (p : payload) : M (list string) :=
  match p with
  | PContainer c => mret (map fst (map_to_list c))
  | PDefinition d => lift (definition_keys d)
  end.

(** The inner loop of [systems]: the systems that have [uname] as a member
    are added to [out]. *)
Definition add_systems (table : list (string * System)) (out : gset string)
    (uname : string) : gset string :=
  foldl (fun out '(sname, sys) =>
           if bool_decide (uname ∈ members sys) then {[ sname ]} ∪ out else out)
        out table.

(** The [systems] property. *)
Definition systems (self : loc) : M (gset string) :=
  o ← get_unit self;
  keys ← units_keys (_units o);
  mret (foldl (add_systems (map_to_list (_systems (cls o)))) ∅ keys).

End Systems.

(** The positional operands that the array hook passes on. *)
Definition substituted (self : loc) (q : value) (inputs : list value) : list value :=
  map (fun arg => if is_ arg self then q else arg) inputs.

Module DemoMore.

(** A renderer that joins the names of the container. *)
Definition join_names (r : registry) (p : payload) (spec : string) : result string :=
  match p with
  | PContainer c => Ok (String.concat " * " (map fst (map_to_list c)))
  | PDefinition d => Ok (def_name d)
  end.

#[local] Instance formatter : Formatter :=
  {| format_unit := join_names; definition_truth := fun _ => true |}.

(** Modelled from the spec: the registry's table of named unit systems. *)
Definition systems_table (r : reg_id) : gmap string System :=
  {[ "SI" := {| members := {[ "meter"; "second"; "radian" ]} |};
     "mks" := {| members := {[ "meter"; "kilometer"; "second" ]} |};
     "imperial" := {| members := {[ "foot" ]} |} ]}.

Definition no_keys (d : UnitDefinition) : result (list string) :=
  Raise (AttributeError "keys").

End DemoMore.

(** * Properties *)

(** ** The monad *)

Lemma bind_ok {A B} (m : M A) (f : A -> M B) (w w' : world) (a : A) :
  m w = (Ok a, w') -> (m ≫= f) w = f a w'.
Proof. intros E. unfold mbind, M_bind, bind. now rewrite E. Qed.

Lemma bind_raise {A B} (m : M A) (f : A -> M B) (w w' : world) (e : exn) :
  m w = (Raise e, w') -> (m ≫= f) w = (Raise e, w').
Proof. intros E. unfold mbind, M_bind, bind. now rewrite E. Qed.

Lemma get_unit_ok (l : loc) (o : UnitObj) (w : world) :
  heap w !! l = Some o -> get_unit l w = (Ok o, w).
Proof. intros E. unfold get_unit. now rewrite E. Qed.

Lemma get_registry_ok (r : reg_id) (w : world) :
  get_registry r w = (Ok (registries w r), w).
Proof. reflexivity. Qed.

Ltac monad_unfold :=
  unfold mbind, M_bind, bind, mret, M_ret, ret, raise, lift, ask, get_registry in *.

(** ** Exponent containers *)

Lemma prune_exponent (s : Q) : default 0 (prune s) == s.
Proof.
  unfold prune. destruct (Qeq_bool s 0) eqn:E; simpl; [|reflexivity].
  apply Qeq_bool_eq in E. now rewrite E.
Qed.

Lemma uc_mul_exponent (a b : UnitsContainer) (k : string) :
  exponent (uc_mul a b) k == exponent a k + exponent b k.
Proof.
  unfold exponent, uc_mul. rewrite lookup_merge.
  destruct (a !! k) as [x|], (b !! k) as [y|]; simpl;
    rewrite ?prune_exponent; ring.
Qed.

Lemma uc_div_exponent (a b : UnitsContainer) (k : string) :
  exponent (uc_div a b) k == exponent a k - exponent b k.
Proof.
  unfold exponent, uc_div. rewrite lookup_merge.
  destruct (a !! k) as [x|], (b !! k) as [y|]; simpl;
    rewrite ?prune_exponent; ring.
Qed.

Lemma uc_pow_exponent (a : UnitsContainer) (n : num) (k : string) :
  exponent (uc_pow a n) k == exponent a k * n.
Proof.
  unfold exponent, uc_pow. rewrite lookup_fmap.
  destruct (a !! k); simpl; ring.
Qed.

(** Multiplication and division leave no zero exponent behind. *)
Lemma uc_mul_pruned (a b : UnitsContainer) (k : string) (x : Q) :
  (forall y, a !! k = Some y -> ~ y == 0) ->
  uc_mul a b !! k = Some x -> ~ x == 0.
Proof.
  intros Ha. unfold uc_mul. rewrite lookup_merge.
  destruct (a !! k) as [y|] eqn:Ea, (b !! k) as [z|] eqn:Eb; simpl;
    try discriminate.
  - unfold prune. destruct (Qeq_bool (y + z) 0) eqn:E; [discriminate|].
    intros [= <-]. now apply Qeq_bool_neq.
  - intros [= <-]. now apply Ha.
  - unfold prune. destruct (Qeq_bool (0 + z) 0) eqn:E; [discriminate|].
    intros [= <-]. now apply Qeq_bool_neq.
Qed.

Lemma uc_bool_empty (d : UnitsContainer) : uc_bool d = false <-> d = ∅.
Proof.
  unfold uc_bool. rewrite negb_false_iff, bool_decide_eq_true.
  apply dom_empty_iff_L.
Qed.

Lemma str_remove_contains (c : ascii) (s : string) :
  str_contains c (str_remove c s) = false.
Proof.
  induction s as [|a s IH]; simpl; [reflexivity|].
  destruct (Ascii.eqb a c) eqn:E; simpl; [assumption|]. now rewrite E.
Qed.

(** ** Arithmetic of units *)

Lemma fresh_loc_free (w : world) : heap w !! fresh (dom (heap w)) = None.
Proof. apply not_elem_of_dom. apply is_fresh. Qed.

Lemma store_lookup_ne (l l' : loc) (o : UnitObj) (w : world) :
  l' <> l -> heap (store l o w) !! l' = heap w !! l'.
Proof. intros Hne. simpl. now apply lookup_insert_ne. Qed.

Section Algebra.
Context `{Collaborators}.

Lemma _check_same_class (self other : loc) (A B : UnitObj) (w : world) :
  heap w !! self = Some A -> heap w !! other = Some B -> cls A = cls B ->
  _check self (VUnit other) w = (Ok true, w).
Proof.
  intros HA HB E. unfold _check.
  rewrite (bind_ok _ _ _ _ _ (get_unit_ok _ _ _ HA)).
  rewrite (bind_ok _ _ _ _ _ (get_unit_ok _ _ _ HB)).
  rewrite E, Nat.eqb_refl. reflexivity.
Qed.

Lemma isinstance_class_same (other : loc) (B : UnitObj) (w : world) :
  heap w !! other = Some B ->
  isinstance_class (cls B) (VUnit other) w = (Ok true, w).
Proof.
  intros HB. unfold isinstance_class.
  rewrite (bind_ok _ _ _ _ _ (get_unit_ok _ _ _ HB)).
  now rewrite Nat.eqb_refl.
Qed.

Lemma store_other (l l' : loc) (o : UnitObj) (w : world) :
  heap w !! l = None -> is_Some (heap w !! l') ->
  heap (store l o w) !! l' = heap w !! l'.
Proof.
  intros Hfree [o' Ho']. simpl. apply lookup_insert_ne. intros ->. congruence.
Qed.

(** C2, as the code has it: for Units A and B of the same concrete class
    that hold the containers a and b, [A * B] is a new Unit of that class
    whose container has, for every name, the sum of the exponents of a and
    b, and [A / B] is a new Unit of that class whose container has the
    difference; A and B are left as they were. *)
Theorem mul_truediv_units (self other : loc) (A B : UnitObj)
    (a b : UnitsContainer) (w : world) :
  heap w !! self = Some A -> heap w !! other = Some B ->
  cls A = cls B -> _units A = PContainer a -> _units B = PContainer b ->
  (exists (l : loc) (w1 : world) (c : UnitsContainer),
      __mul__ self (VUnit other) w = (Ok (VUnit l), w1)
      /\ heap w !! l = None
      /\ heap w1 !! l = Some {| cls := cls A; _units := PContainer c;
                                __used := false; _dimensionality := None |}
      /\ (forall k, exponent c k == exponent a k + exponent b k)
      /\ heap w1 !! self = Some A /\ heap w1 !! other = Some B)
  /\ (exists (l : loc) (w1 : world) (c : UnitsContainer),
      __truediv__ self (VUnit other) w = (Ok (VUnit l), w1)
      /\ heap w !! l = None
      /\ heap w1 !! l = Some {| cls := cls A; _units := PContainer c;
                                __used := false; _dimensionality := None |}
      /\ (forall k, exponent c k == exponent a k - exponent b k)
      /\ heap w1 !! self = Some A /\ heap w1 !! other = Some B).
Proof.
  intros HA HB E Ea Eb.
  pose proof (_check_same_class _ _ _ _ _ HA HB E) as Hc.
  pose proof (isinstance_class_same _ _ _ HB) as Hi. rewrite <- E in Hi.
  pose proof (fresh_loc_free w) as Hfree.
  split.
  - exists (fresh (dom (heap w))),
      (store (fresh (dom (heap w))) (fresh_unit (cls A) (PContainer (uc_mul a b))) w),
      (uc_mul a b).
    split; [|split; [exact Hfree|split; [|split; [|split]]]].
    + unfold __mul__.
      rewrite (bind_ok _ _ _ _ _ (get_unit_ok _ _ _ HA)).
      rewrite (bind_ok _ _ _ _ _ Hc). rewrite (bind_ok _ _ _ _ _ Hi).
      rewrite (bind_ok _ _ _ _ _ (get_unit_ok _ _ _ HB)).
      rewrite Ea, Eb. reflexivity.
    + simpl. rewrite lookup_insert_eq. reflexivity.
    + apply uc_mul_exponent.
    + rewrite store_other; [exact HA|exact Hfree|eauto].
    + rewrite store_other; [exact HB|exact Hfree|eauto].
  - exists (fresh (dom (heap w))),
      (store (fresh (dom (heap w))) (fresh_unit (cls A) (PContainer (uc_div a b))) w),
      (uc_div a b).
    split; [|split; [exact Hfree|split; [|split; [|split]]]].
    + unfold __truediv__.
      rewrite (bind_ok _ _ _ _ _ (get_unit_ok _ _ _ HA)).
      rewrite (bind_ok _ _ _ _ _ Hc). rewrite (bind_ok _ _ _ _ _ Hi).
      rewrite (bind_ok _ _ _ _ _ (get_unit_ok _ _ _ HB)).
      rewrite Ea, Eb. reflexivity.
    + simpl. rewrite lookup_insert_eq. reflexivity.
    + apply uc_div_exponent.
    + rewrite store_other; [exact HA|exact Hfree|eauto].
    + rewrite store_other; [exact HB|exact Hfree|eauto].
Qed.

Lemma type_of_world (x : value) (w w' : world) (r : result pytype) :
  type_of x w = (r, w') -> w' = w.
Proof.
  destruct x; simpl; try (now intros [= _ <-]).
  unfold mbind, M_bind, bind, get_unit.
  destruct (heap w !! l); now intros [= _ <-].
Qed.

(** C3, as the code has it: for a Unit A that holds the container a and a
    plain number n, [A ** n] is a new Unit of the class of A whose container
    has the names of a, every exponent multiplied by n; for an exponent of
    another class of NUMERIC_TYPES (an array) it is the new Unit of what
    the power of the container gives; and for every Unit A, whatever it
    holds, and every exponent x of no class of NUMERIC_TYPES, [A ** x]
    raises a TypeError whose message names the type of x and changes
    nothing. *)
Theorem pow_units (self : loc) (A : UnitObj) (w : world) :
  heap w !! self = Some A ->
  (forall a : UnitsContainer,
     _units A = PContainer a ->
     (forall (c : numclass) (n : num),
        exists (l : loc) (w1 : world) (c' : UnitsContainer),
          __pow__ self (VNum c n) w = (Ok (VUnit l), w1)
          /\ heap w !! l = None
          /\ heap w1 !! l = Some {| cls := cls A; _units := PContainer c';
                                    __used := false; _dimensionality := None |}
          /\ dom c' = dom a
          /\ (forall k, exponent c' k == exponent a k * n)
          /\ heap w1 !! self = Some A)
     /\ (forall (o : foreign) (c' : UnitsContainer),
           numeric_types (f_type o) = true ->
           definition_binop "__pow__" (VContainer a) (VObject o) = Ok (VContainer c') ->
           exists (l : loc) (w1 : world),
             __pow__ self (VObject o) w = (Ok (VUnit l), w1)
             /\ heap w !! l = None
             /\ heap w1 !! l = Some {| cls := cls A; _units := PContainer c';
                                       __used := false; _dimensionality := None |}))
  /\ (forall (x : value) (t : pytype),
        is_numeric x = false -> type_of x w = (Ok t, w) ->
        __pow__ self x w
          = (Raise (TypeError ("Cannot power Unit by " ++ type_repr t)), w)).
Proof.
  intros HA. pose proof (fresh_loc_free w) as Hfree. split.
  - intros a Ea. split.
    + intros c n.
      exists (fresh (dom (heap w))),
        (store (fresh (dom (heap w))) (fresh_unit (cls A) (PContainer (uc_pow a n))) w),
        (uc_pow a n).
      split; [|split; [exact Hfree|split; [|split; [|split]]]].
      * unfold __pow__. rewrite (bind_ok _ _ _ _ _ (get_unit_ok _ _ _ HA)).
        rewrite Ea. reflexivity.
      * simpl. rewrite lookup_insert_eq. reflexivity.
      * unfold uc_pow. apply dom_fmap_L.
      * apply uc_pow_exponent.
      * rewrite store_other; [exact HA|exact Hfree|eauto].
    + intros o c' Hn Hp.
      exists (fresh (dom (heap w))),
        (store (fresh (dom (heap w))) (fresh_unit (cls A) (PContainer c')) w).
      split; [|split; [exact Hfree|]].
      * unfold __pow__. rewrite (bind_ok _ _ _ _ _ (get_unit_ok _ _ _ HA)).
        simpl. rewrite Hn, Ea. unfold units_pow, payload_value. monad_unfold.
        rewrite Hp. reflexivity.
      * simpl. rewrite lookup_insert_eq. reflexivity.
  - intros x t Hx Ht. unfold __pow__.
    rewrite (bind_ok _ _ _ _ _ (get_unit_ok _ _ _ HA)). rewrite Hx.
    now rewrite (bind_ok _ _ _ _ _ Ht).
Qed.

(** C10: the reflected multiplication handler is the forward handler, so
    [x * u], once dispatched to the reflected handler of the unit u, returns
    what [u * x] returns; a plain number, string or tuple on the left is
    dispatched there. *)
Theorem rmul_is_mul :
  __rmul__ = __mul__
  /\ (forall (u : loc) (x : value), __rmul__ u x = __mul__ u x)
  /\ (forall (u : loc) (c : numclass) (n : num),
        py_mul (VNum c n) u = __mul__ u (VNum c n))
  /\ (forall (u : loc) (s : string), py_mul (VStr s) u = __mul__ u (VStr s))
  /\ (forall (u : loc) (vs : list value), py_mul (VTuple vs) u = __mul__ u (VTuple vs)).
Proof. repeat split. Qed.

End Algebra.

(** ** Compatibility *)

Section Compatibility.
Context `{Collaborators}.

Lemma _check_plain (self : loc) (o : UnitObj) (other : value) (w : world) :
  heap w !! self = Some o ->
  match other with
  | VUnit _ | VQuantity _ _ _ => True
  | _ => _check self other w = (Ok false, w)
  end.
Proof.
  intros Ho. unfold _check.
  destruct other; try exact I;
    now rewrite (bind_ok _ _ _ _ _ (get_unit_ok _ _ _ Ho)).
Qed.

(** [1 * u] is the unit-magnitude quantity of u. *)
Lemma one_times_unit (self : loc) (o : UnitObj) (w : world) :
  heap w !! self = Some o ->
  py_mul (VNum NInt 1) self w = (Ok (Quantity (cls o) (VNum NInt 1) (_units o)), w).
Proof.
  intros Ho. unfold py_mul, __rmul__, __mul__.
  rewrite (bind_ok _ _ _ _ _ (get_unit_ok _ _ _ Ho)).
  rewrite (bind_ok _ _ _ _ _ (_check_plain self o (VNum NInt 1) w Ho)).
  reflexivity.
Qed.

(** C1, as the code has it: the precedence of [is_compatible_with].  With
    explicit contexts, or when the chain of active contexts of the registry
    is true (an active context has a rule; a stack of contexts without
    rules is not enough), the unit-magnitude quantity of self is converted
    into other: success gives True, a dimensionality mismatch gives False,
    any other error propagates.  Otherwise a Unit or Quantity operand gives
    [self.dimensionality == other.dimensionality], a string gives the
    comparison with the dimensionality of the parsed string, and any other
    operand gives [self.dimensionless]. *)
Theorem is_compatible_with_tiers (self : loc) (o : UnitObj) (other : value)
    (contexts : list value) (kw : kwargs) (w : world) :
  heap w !! self = Some o ->
  if nonempty contexts || active_truth (_active_ctx (registries w (cls o))) then
    is_compatible_with self other contexts kw w
    = match quantity_to w (Quantity (cls o) (VNum NInt 1) (_units o)) other contexts kw with
      | Ok _ => (Ok true, w)
      | Raise DimensionalityError => (Ok false, w)
      | Raise e => (Raise e, w)
      end
  else
    is_compatible_with self other contexts kw w
    = match other with
      | VUnit l' =>
          (d1 ← dimensionality self; d2 ← dimensionality l'; mret (uc_eqb d1 d2)) w
      | VQuantity _ _ _ =>
          (d1 ← dimensionality self;
           d2 ← ask (fun w' => quantity_dimensionality w' other);
           mret (uc_eqb d1 d2)) w
      | VStr s =>
          (d1 ← dimensionality self;
           u ← registry_parse_units (cls o) s;
           d2 ← dimensionality u;
           mret (uc_eqb d1 d2)) w
      | _ => dimensionless self w
      end.
Proof.
  intros Ho. unfold is_compatible_with.
  rewrite (bind_ok _ _ _ _ _ (get_unit_ok _ _ _ Ho)).
  rewrite (bind_ok _ _ _ _ _ (get_registry_ok _ _)).
  destruct (nonempty contexts || active_truth (_active_ctx (registries w (cls o)))).
  - unfold try_except.
    rewrite (bind_ok _ _ _ _ _ (one_times_unit _ _ _ Ho)).
    unfold call_to, Quantity, ask, mbind, M_bind, bind, mret, M_ret, ret, raise.
    destruct (quantity_to w _ other contexts kw) as [v|[]]; reflexivity.
  - destruct other; reflexivity.
Qed.

(** When nothing is cached, the comparison of two Units is the comparison of
    what the registries compute for their containers. *)
Lemma dimensionality_first_read (self : loc) (o : UnitObj) (d : UnitsContainer)
    (w : world) :
  heap w !! self = Some o -> _dimensionality o = None ->
  _get_dimensionality (registries w (cls o)) (_units o) = Ok d ->
  dimensionality self w
  = (Ok d, {| heap := <[self := {| cls := cls o; _units := _units o;
                                   __used := __used o;
                                   _dimensionality := Some d |}]> (heap w);
              registries := registries w;
              calls := calls w ++ [CallGetDimensionality (cls o) (_units o) true] |}).
Proof.
  intros Ho Hc Hd. unfold dimensionality.
  rewrite (bind_ok _ _ _ _ _ (get_unit_ok _ _ _ Ho)). rewrite Hc.
  unfold registry_get_dimensionality, set_dimensionality, get_unit, log.
  monad_unfold. rewrite Hd. simpl.
  rewrite lookup_alter_eq, Ho. simpl. do 2 f_equal.
  apply map_eq. intros i. destruct (decide (i = self)) as [->|Hne].
  - now rewrite lookup_alter_eq, lookup_insert_eq, Ho.
  - now rewrite lookup_alter_ne, lookup_insert_ne by congruence.
Qed.

Lemma dimensionality_cached (self : loc) (o : UnitObj) (d : UnitsContainer)
    (w : world) :
  heap w !! self = Some o -> _dimensionality o = Some d ->
  dimensionality self w = (Ok d, w).
Proof.
  intros Ho Hc. unfold dimensionality.
  rewrite (bind_ok _ _ _ _ _ (get_unit_ok _ _ _ Ho)). now rewrite Hc.
Qed.

End Compatibility.

(** ** Dimensionless units *)

Section Dimensionless.
Context `{Collaborators}.

Lemma alloc_lookup (o : UnitObj) (w : world) :
  heap (store (fresh (dom (heap w))) o w) !! fresh (dom (heap w)) = Some o.
Proof. simpl. apply lookup_insert_eq. Qed.

(** C9, as the code has it: [Unit(C).dimensionless] is True exactly when the
    dimensionality the registry computes for C is the empty container; when
    the registry raises, so does the property. *)
Theorem dimensionless_iff_dimensionality_empty (r : reg_id) (c : UnitsContainer)
    (w : world) :
  exists (l : loc) (w1 w2 : world),
    __init__ r (VContainer c) w = (Ok l, w1)
    /\ match _get_dimensionality (registries w r) (PContainer c) with
       | Ok d => exists b : bool,
           dimensionless l w1 = (Ok b, w2) /\ (b = true <-> d = ∅)
       | Raise e => dimensionless l w1 = (Raise e, w2)
       end.
Proof.
  set (l := fresh (dom (heap w))).
  set (w1 := store l (fresh_unit r (PContainer c)) w).
  assert (Hl : heap w1 !! l = Some (fresh_unit r (PContainer c)))
    by apply alloc_lookup.
  destruct (_get_dimensionality (registries w r) (PContainer c)) as [d|e] eqn:Ed.
  - eexists l, w1, _. split; [reflexivity|].
    exists (negb (uc_bool d)). split.
    + unfold dimensionless.
      erewrite bind_ok; [reflexivity|].
      apply (dimensionality_first_read l _ d w1 Hl); [reflexivity|exact Ed].
    + rewrite negb_true_iff. apply uc_bool_empty.
  - eexists l, w1, _. split; [reflexivity|].
    unfold dimensionless, dimensionality, registry_get_dimensionality, log.
    monad_unfold. rewrite (get_unit_ok _ _ _ Hl). simpl.
    rewrite Ed. reflexivity.
Qed.

End Dimensionless.

(** ** Equality *)


(** ** Conversion helpers *)

Section Conversion.
Context `{Collaborators}.

(** What [from_] does outside the one case of C6 that fails: a Quantity of
    the registry is converted to self, a Unit of the registry is first made
    a unit-magnitude quantity, a value that is not quantity-like and not a
    tuple raises the ValueError naming it in strict mode and is multiplied
    by self otherwise. *)
Lemma from__dispatch (self : loc) (o : UnitObj) (strict : bool) (name : string)
    (w : world) :
  heap w !! self = Some o ->
  (forall m u,
      from_ self (VQuantity (cls o) m u) strict name w
      = (quantity_to w (VQuantity (cls o) m u) (VUnit self) [] [], w))
  /\ (forall l' o',
      heap w !! l' = Some o' -> cls o' = cls o ->
      from_ self (VUnit l') strict name w
      = (quantity_to w (Quantity (cls o) (VNum NInt 1) (_units o')) (VUnit self) [] [], w))
  /\ (forall v s,
      _check self v w = (Ok false, w) -> (forall vs, v <> VTuple vs) ->
      py_str w v = Ok s ->
      from_ self v true name w = (Raise (ValueError (s ++ " must be a Quantity")), w))
  /\ (forall v,
      _check self v w = (Ok false, w) ->
      from_ self v false name w = py_mul v self w).
Proof.
  intros Ho. repeat split.
  - intros m u. unfold from_, _check, call_to. monad_unfold.
    rewrite !(get_unit_ok _ _ _ Ho). rewrite !Nat.eqb_refl. reflexivity.
  - intros l' o' Ho' E. unfold from_, _check, quantity_of, call_to. monad_unfold.
    rewrite !(get_unit_ok _ _ _ Ho). rewrite !(get_unit_ok _ _ _ Ho').
    rewrite E, Nat.eqb_refl. rewrite !(get_unit_ok _ _ _ Ho'). reflexivity.
  - intros v s Hc Hv Hs. unfold from_.
    rewrite (bind_ok _ _ _ _ _ (get_unit_ok _ _ _ Ho)).
    rewrite (bind_ok _ _ _ _ _ Hc).
    destruct v; try (unfold percent_must_be_quantity; monad_unfold; now rewrite Hs).
    now destruct (Hv vs).
  - intros v Hc. unfold from_.
    rewrite (bind_ok _ _ _ _ _ (get_unit_ok _ _ _ Ho)).
    now rewrite (bind_ok _ _ _ _ _ Hc).
Qed.

(** [m_from] is [from_] followed by the magnitude of its result. *)
Lemma m_from_magnitude (self : loc) (v : value) (strict : bool) (name : string)
    (w : world) :
  m_from self v strict name w
  = match from_ self v strict name w with
    | (Ok x, w') => get_magnitude x w'
    | (Raise e, w') => (Raise e, w')
    end.
Proof. reflexivity. Qed.

(** C6 at the values where it fails: in strict mode a tuple of two or more
    elements is not quantity-like, and [from_] raises the TypeError of the
    string formatting, not a ValueError naming the value. *)
Theorem from__strict_tuple (self : loc) (o : UnitObj) (x y : value)
    (rest : list value) (name : string) (w : world) :
  heap w !! self = Some o ->
  from_ self (VTuple (x :: y :: rest)) true name w
  = (Raise (TypeError "not all arguments converted during string formatting"), w).
Proof.
  intros Ho. unfold from_.
  rewrite (bind_ok _ _ _ _ _ (get_unit_ok _ _ _ Ho)).
  rewrite (bind_ok _ _ _ _ _ (_check_plain self o (VTuple _) w Ho)).
  reflexivity.
Qed.

End Conversion.

(** ** The array-interception hook *)

Section ArrayUfunc.
Context `{Collaborators}.

Lemma type_of_bound (a : value) (w : world) :
  bound w a -> exists t, type_of a w = (Ok t, w).
Proof.
  destruct a; simpl; try (intros _; eexists; reflexivity).
  intros [o Ho]. exists (TyUnit (cls o)).
  now rewrite (bind_ok _ _ _ _ _ (get_unit_ok _ _ _ Ho)).
Qed.

Lemma types_of_bound (args : list value) (w : world) :
  Forall (bound w) args ->
  exists ts, types_of args w = (Ok ts, w)
             /\ Forall2 (fun a t => type_of a w = (Ok t, w)) args ts.
Proof.
  induction 1 as [|a args Ha _ [ts [E F]]].
  - exists []. split; [reflexivity|constructor].
  - destruct (type_of_bound a w Ha) as [t Et].
    exists (t :: ts). split; [|now constructor].
    simpl. rewrite (bind_ok _ _ _ _ _ Et). now rewrite (bind_ok _ _ _ _ _ E).
Qed.

Lemma existsb_types (f : pytype -> bool) (args : list value) (ts : list pytype)
    (w : world) :
  Forall2 (fun a t => type_of a w = (Ok t, w)) args ts ->
  existsb f ts = true
  <-> exists a t, In a args /\ type_of a w = (Ok t, w) /\ f t = true.
Proof.
  induction 1 as [|a t args ts Et _ IH]; simpl.
  - split; [discriminate|]. now intros (a & t & [] & _).
  - rewrite orb_true_iff, IH. split.
    + intros [Hf|(a' & t' & Hin & Ht & Hf)].
      * exists a, t. auto.
      * exists a', t'. auto.
    + intros (a' & t' & [<-|Hin] & Ht & Hf).
      * left. rewrite Et in Ht. now injection Ht as ->.
      * right. exists a', t'. auto.
Qed.

(** C7, as the code has it: the hook declines when the method is not a plain
    call; it declines when an operand, positional or keyword, that has the
    array hook is of an upcast type; it declines for every operation kind
    other than multiply, true-divide, divide and floor-divide; otherwise it
    replaces every occurrence of self among the positional operands by the
    unit-magnitude quantity of self and calls the same operation on them,
    with the keyword operands as they were given. *)
Theorem array_ufunc_dispatch (self : loc) (o : UnitObj) (uf : ufunc)
    (method : string) (inputs : list value) (kw : kwargs) (w : world) :
  heap w !! self = Some o ->
  Forall (bound w) (inputs ++ map snd kw)%list ->
  let upcast_operand :=
    exists arg t, In arg (inputs ++ map snd kw)%list /\ has_array_ufunc arg = true
                  /\ type_of arg w = (Ok t, w) /\ is_upcast_type t = true in
  let declines :=
    __array_ufunc__ self uf method inputs kw w = (Ok VNotImplemented, w) in
  (method <> "__call__" -> declines)
  /\ (upcast_operand -> declines)
  /\ (ufunc_name uf ∉ handled_ufuncs -> declines)
  /\ (method = "__call__" -> ~ upcast_operand -> ufunc_name uf ∈ handled_ufuncs ->
      __array_ufunc__ self uf method inputs kw w
      = (ufunc_call w uf
           (map (fun arg => if is_ arg self
                            then Quantity (cls o) (VNum NInt 1) (_units o)
                            else arg) inputs) kw, w)).
Proof.
  intros Ho Hb upcast_operand declines.
  assert (Hf : Forall (bound w) (List.filter has_array_ufunc (inputs ++ map snd kw)%list)).
  { rewrite List.Forall_forall in *. intros a Ha.
    apply List.filter_In in Ha. now apply Hb. }
  destruct (types_of_bound _ _ Hf) as [ts [Ets F]].
  pose proof (existsb_types is_upcast_type _ _ _ F) as Hex.
  assert (Hup : existsb is_upcast_type ts = true <-> upcast_operand).
  { rewrite Hex. unfold upcast_operand. split.
    - intros (a & t & Hin & Ht & Hu). apply List.filter_In in Hin as [Hin Hh].
      exists a, t. auto.
    - intros (a & t & Hin & Hh & Ht & Hu). exists a, t.
      repeat split; auto. apply List.filter_In. auto. }
  assert (Hcall : forall m, String.eqb m "__call__" = true ->
            __array_ufunc__ self uf m inputs kw w
            = if existsb is_upcast_type ts then (Ok VNotImplemented, w)
              else if bool_decide (ufunc_name uf ∈ handled_ufuncs)
                   then (ufunc_call w uf
                           (map (fun arg => if is_ arg self
                                            then Quantity (cls o) (VNum NInt 1) (_units o)
                                            else arg) inputs) kw, w)
                   else (Ok VNotImplemented, w)).
  { intros m Em. unfold __array_ufunc__.
    rewrite (bind_ok _ _ _ _ _ (get_unit_ok _ _ _ Ho)). rewrite Em. simpl.
    rewrite (bind_ok _ _ _ _ _ Ets).
    destruct (existsb is_upcast_type ts); [reflexivity|].
    destruct (bool_decide (ufunc_name uf ∈ handled_ufuncs)); reflexivity. }
  assert (Hother : String.eqb method "__call__" = false -> declines).
  { intros Em. unfold declines, __array_ufunc__.
    rewrite (bind_ok _ _ _ _ _ (get_unit_ok _ _ _ Ho)). now rewrite Em. }
  repeat split.
  - intros Hm. apply Hother. now apply String.eqb_neq.
  - intros Hu. destruct (String.eqb method "__call__") eqn:Em; [|now apply Hother].
    unfold declines. rewrite (Hcall _ Em).
    apply Hup in Hu. now rewrite Hu.
  - intros Hn. destruct (String.eqb method "__call__") eqn:Em; [|now apply Hother].
    unfold declines. rewrite (Hcall _ Em).
    destruct (existsb is_upcast_type ts); [reflexivity|].
    now rewrite bool_decide_eq_false_2.
  - intros -> Hu Hin. rewrite (Hcall "__call__" (String.eqb_refl _)).
    destruct (existsb is_upcast_type ts) eqn:E; [now destruct Hu; apply Hup|].
    now rewrite bool_decide_eq_true_2.
Qed.

End ArrayUfunc.

(** ** Effects of the registry lookups *)

Lemma quiet_refl (w : world) : quiet w w.
Proof. split; [reflexivity|]. exists []. now rewrite app_nil_r. Qed.

Lemma quiet_trans (w1 w2 w3 : world) : quiet w1 w2 -> quiet w2 w3 -> quiet w1 w3.
Proof.
  intros [R1 (e1 & C1 & F1)] [R2 (e2 & C2 & F2)]. split; [congruence|].
  exists (e1 ++ e2)%list. split.
  - rewrite C2, C1. now rewrite <- app_assoc.
  - now apply Forall_app.
Qed.

Lemma quiet_logged (c : call) (w : world) (u : unit) (w' : world) :
  rendering c = false -> log c w = (Ok u, w') -> quiet w w'.
Proof.
  intros Hc [= _ <-]. split; [reflexivity|]. exists [c]. split; [reflexivity|].
  now constructor.
Qed.

(** The three ways a read of the property can go on an object without a
    cached value, and the one way on an object with one. *)
Lemma dimensionality_cases (self : loc) (o : UnitObj) (w : world) :
  heap w !! self = Some o ->
  match _dimensionality o with
  | Some d => dimensionality self w = (Ok d, w)
  | None =>
      match _get_dimensionality (registries w (cls o)) (_units o) with
      | Ok d =>
          exists w', dimensionality self w = (Ok d, w')
                     /\ cached w' self = Some d
                     /\ registries w' = registries w
                     /\ calls w' = (calls w ++ [CallGetDimensionality (cls o) (_units o) true])%list
      | Raise e =>
          exists w', dimensionality self w = (Raise e, w')
                     /\ heap w' = heap w
                     /\ registries w' = registries w
                     /\ calls w' = (calls w ++ [CallGetDimensionality (cls o) (_units o) false])%list
      end
  end.
Proof.
  intros Ho. destruct (_dimensionality o) as [d|] eqn:Ec.
  - now apply dimensionality_cached with o.
  - destruct (_get_dimensionality (registries w (cls o)) (_units o)) as [d|e] eqn:Ed.
    + eexists. split; [exact (dimensionality_first_read self o d w Ho Ec Ed)|].
      repeat split. unfold cached. simpl. now rewrite lookup_insert_eq.
    + eexists. split.
      * unfold dimensionality, registry_get_dimensionality, log. monad_unfold.
        rewrite (get_unit_ok _ _ _ Ho), Ec. simpl. rewrite Ed. reflexivity.
      * repeat split.
Qed.

Lemma dimensionality_dangling (self : loc) (w : world) :
  heap w !! self = None ->
  dimensionality self w = (Raise (OtherError "dangling reference"), w).
Proof.
  intros Hn. unfold dimensionality, get_unit. monad_unfold. now rewrite Hn.
Qed.

Lemma dimensionality_quiet (self : loc) (w w' : world) (r : result UnitsContainer) :
  dimensionality self w = (r, w') -> quiet w w'.
Proof.
  destruct (heap w !! self) as [o|] eqn:Ho.
  - pose proof (dimensionality_cases self o w Ho) as Hc.
    destruct (_dimensionality o).
    + rewrite Hc. intros [= _ <-]. apply quiet_refl.
    + destruct (_get_dimensionality (registries w (cls o)) (_units o));
        destruct Hc as (w1 & -> & _ & Hr & Hcalls); intros [= _ <-];
        (split; [exact Hr|]); eexists; (split; [exact Hcalls|]);
        now constructor.
  - rewrite (dimensionality_dangling _ _ Ho). intros [= _ <-]. apply quiet_refl.
Qed.

Lemma dimensionless_quiet (self : loc) (w w' : world) (r : result bool) :
  dimensionless self w = (r, w') -> quiet w w'.
Proof.
  unfold dimensionless. monad_unfold.
  destruct (dimensionality self w) as [[d|e] w1] eqn:E; intros [= _ <-];
    now apply dimensionality_quiet in E.
Qed.

Lemma symbol_items_quiet (r : reg_id) (items : list (string * num))
    (acc : UnitsContainer) (w w' : world) (res : result UnitsContainer) :
  symbol_items r items acc w = (res, w') -> quiet w w'.
Proof.
  revert acc w. induction items as [|[key v] rest IH]; intros acc w; simpl.
  - intros [= _ <-]. apply quiet_refl.
  - unfold log. monad_unfold. simpl.
    destruct (_get_symbol (registries w r) key) as [sym|e].
    + intros E. apply IH in E. eapply quiet_trans; [|exact E].
      split; [reflexivity|]. exists [CallGetSymbol r key].
      split; [reflexivity|]. now constructor.
    + intros [= _ <-]. split; [reflexivity|]. exists [CallGetSymbol r key].
      split; [reflexivity|]. now constructor.
Qed.

(** ** Localized formatting *)

Section Formatting.
Context `{Collaborators}.

(** C4, as the code has it: with no explicit locale and no default locale in
    the registry, [format_babel] never reaches the locale parser or the
    renderer; without the short-form flag it raises the missing-locale
    ValueError at once; with the flag it returns the empty string for a
    dimensionless unit, and otherwise raises the missing-locale error once
    the symbols are looked up (an error of the registry during these
    lookups propagates).  The empty string of the dimensionless short form
    is the only string it can return. *)
Theorem format_babel_no_locale (self : loc) (o : UnitObj) (spec : string)
    (kw : kwargs) (w : world) :
  heap w !! self = Some o ->
  fmt_locale (registries w (cls o)) = None ->
  let spec' := if String.eqb spec ""
               then extract_custom_flags (default_format (registries w (cls o)))
               else spec in
  (forall r w', format_babel self spec None kw w = (r, w') -> quiet w w')
  /\ (str_contains tilde spec' = false ->
      format_babel self spec None kw w = (Raise missing_locale, w))
  /\ (str_contains tilde spec' = true ->
      match dimensionless self w with
      | (Ok true, w1) => format_babel self spec None kw w = (Ok "", w1)
      | (Ok false, w1) =>
          match (items ← units_items (_units o);
                 symbol_items (cls o) items ∅) w1 with
          | (Ok _, w2) => format_babel self spec None kw w = (Raise missing_locale, w2)
          | (Raise e, w2) => format_babel self spec None kw w = (Raise e, w2)
          end
      | (Raise e, w1) => format_babel self spec None kw w = (Raise e, w1)
      end)
  /\ (forall s w', format_babel self spec None kw w = (Ok s, w') ->
      s = "" /\ str_contains tilde spec' = true
      /\ (dimensionless self w).1 = Ok true).
Proof.
  intros Ho Hl spec'.
  assert (Hplain : str_contains tilde spec' = false ->
            format_babel self spec None kw w = (Raise missing_locale, w)).
  { intros Ht. unfold format_babel.
    rewrite (bind_ok _ _ _ _ _ (get_unit_ok _ _ _ Ho)).
    rewrite (bind_ok _ _ _ _ _ (get_registry_ok _ _)).
    fold spec'. rewrite Ht.
    rewrite (bind_ok _ _ _ _ _ (get_registry_ok _ _)). now rewrite Hl. }
  assert (Hshort : str_contains tilde spec' = true ->
      match dimensionless self w with
      | (Ok true, w1) => format_babel self spec None kw w = (Ok "", w1)
      | (Ok false, w1) =>
          match (items ← units_items (_units o);
                 symbol_items (cls o) items ∅) w1 with
          | (Ok _, w2) => format_babel self spec None kw w = (Raise missing_locale, w2)
          | (Raise e, w2) => format_babel self spec None kw w = (Raise e, w2)
          end
      | (Raise e, w1) => format_babel self spec None kw w = (Raise e, w1)
      end).
  { intros Ht. unfold format_babel.
    rewrite (bind_ok _ _ _ _ _ (get_unit_ok _ _ _ Ho)).
    rewrite (bind_ok _ _ _ _ _ (get_registry_ok _ _)).
    fold spec'. rewrite Ht.
    destruct (dimensionless self w) as [[[|]|e] w1] eqn:Ed.
    - now rewrite (bind_ok _ _ _ _ _ Ed).
    - rewrite (bind_ok _ _ _ _ _ Ed).
      pose proof (dimensionless_quiet _ _ _ _ Ed) as [R1 _].
      destruct (units_items (_units o) w1) as [[items|e] w1'] eqn:Ei;
        [|now rewrite !(bind_raise _ _ _ _ _ Ei)].
      rewrite !(bind_ok _ _ _ _ _ Ei).
      assert (w1' = w1) as ->.
      { destruct (_units o); simpl in Ei; unfold mret, M_ret, ret, lift in Ei;
          now injection Ei. }
      destruct (symbol_items (cls o) items ∅ w1) as [[c|e] w2] eqn:Es;
        [|now rewrite (bind_raise _ _ _ _ _ Es)].
      rewrite (bind_ok _ _ _ _ _ Es).
      pose proof (symbol_items_quiet _ _ _ _ _ _ Es) as [R2 _].
      rewrite (bind_ok _ _ _ _ _ (get_registry_ok _ _)).
      rewrite R2, R1, Hl. reflexivity.
    - now rewrite (bind_raise _ _ _ _ _ Ed). }
  split; [|split; [exact Hplain|split; [exact Hshort|]]].
  - intros r w' E. destruct (str_contains tilde spec') eqn:Ht.
    + specialize (Hshort eq_refl).
      destruct (dimensionless self w) as [[[|]|e] w1] eqn:Ed.
      * rewrite Hshort in E. injection E as _ <-.
        now apply dimensionless_quiet in Ed.
      * apply dimensionless_quiet in Ed.
        unfold mbind, M_bind, bind in Hshort.
        destruct (units_items (_units o) w1) as [[items|e] w1'] eqn:Ei.
        -- assert (w1' = w1) as ->.
           { destruct (_units o); simpl in Ei; unfold mret, M_ret, ret, lift in Ei;
               now injection Ei. }
           destruct (symbol_items (cls o) items ∅ w1) as [[c|e] w2] eqn:Es;
             rewrite Hshort in E; injection E as _ <-;
             apply symbol_items_quiet in Es; now apply quiet_trans with w1.
        -- assert (w1' = w1) as ->.
           { destruct (_units o); simpl in Ei; unfold mret, M_ret, ret, lift in Ei;
               now injection Ei. }
           rewrite Hshort in E. now injection E as _ <-.
      * rewrite Hshort in E. injection E as _ <-.
        now apply dimensionless_quiet in Ed.
    + rewrite (Hplain eq_refl) in E. injection E as _ <-. apply quiet_refl.
  - intros s w' E. destruct (str_contains tilde spec') eqn:Ht.
    + specialize (Hshort eq_refl).
      destruct (dimensionless self w) as [[[|]|e] w1] eqn:Ed.
      * rewrite Hshort in E. now injection E as <- _.
      * destruct ((items ← units_items (_units o);
                   symbol_items (cls o) items ∅) w1) as [[c|e] w2];
          rewrite Hshort in E; discriminate.
      * rewrite Hshort in E. discriminate.
    + rewrite (Hplain eq_refl) in E. discriminate.
Qed.

End Formatting.

(** ** The dimensionality cache *)

Lemma cached_spec (w : world) (self : loc) (d : UnitsContainer) :
  cached w self = Some d
  <-> exists o, heap w !! self = Some o /\ _dimensionality o = Some d.
Proof.
  unfold cached. destruct (heap w !! self) as [o|]; simpl.
  - split; [intros E; now exists o|]. now intros (o' & [= <-] & E).
  - split; [discriminate|]. now intros (o' & [=] & _).
Qed.

Lemma dimensionality_hit (w : world) (self : loc) (d : UnitsContainer) :
  cached w self = Some d -> dimensionality self w = (Ok d, w).
Proof.
  intros (o & Ho & Ec)%cached_spec. now apply dimensionality_cached with o.
Qed.

Lemma dimensionality_ok_cached (w w1 : world) (self : loc) (d : UnitsContainer) :
  dimensionality self w = (Ok d, w1) -> cached w1 self = Some d.
Proof.
  intros E. destruct (heap w !! self) as [o|] eqn:Ho.
  - pose proof (dimensionality_cases self o w Ho) as Hc.
    destruct (_dimensionality o) as [d'|] eqn:Ec.
    + rewrite Hc in E. injection E as -> <-. apply cached_spec. now exists o.
    + destruct (_get_dimensionality (registries w (cls o)) (_units o)).
      * destruct Hc as (w' & Hd & Hcache & _). rewrite Hd in E.
        now injection E as -> <-.
      * destruct Hc as (w' & Hd & _). rewrite Hd in E. discriminate.
  - rewrite (dimensionality_dangling _ _ Ho) in E. discriminate.
Qed.

Lemma returned_reductions_app (cs : list call) (c : call) :
  returned_reductions (cs ++ [c])
  = (returned_reductions cs + if returned_reduction c then 1 else 0)%nat.
Proof.
  unfold returned_reductions. rewrite List.filter_app, length_app. simpl.
  now destruct (returned_reduction c).
Qed.

Lemma reductions_app (cs : list call) (r : reg_id) (p : payload) (b : bool) :
  reductions (cs ++ [CallGetDimensionality r p b]) = S (reductions cs).
Proof.
  unfold reductions. rewrite List.filter_app, length_app. simpl. lia.
Qed.

(** Once a value is cached, no event changes it, every read returns it and
    the registry is not called again. *)
Lemma run_cached (self : loc) (d : UnitsContainer) (evs : list event) :
  forall w, cached w self = Some d ->
  Forall (eq (Ok d)) (run self evs w).1
  /\ calls (run self evs w).2 = calls w
  /\ cached (run self evs w).2 self = Some d.
Proof.
  induction evs as [|ev evs IH]; intros w Hc; simpl.
  - repeat split; [constructor|assumption].
  - destruct ev as [| |rs].
    + rewrite (dimensionality_hit _ _ _ Hc).
      destruct (IH w Hc) as (F & C & K).
      destruct (run self evs w) as [rs w2]. simpl in *.
      repeat split; [now constructor|assumption|assumption].
    + unfold dimensionless. rewrite (bind_ok _ _ _ _ _ (dimensionality_hit _ _ _ Hc)).
      simpl. now apply IH.
    + simpl. apply (IH {| heap := heap w; registries := rs; calls := calls w |}).
      exact Hc.
Qed.

Lemma run_returned_reductions (self : loc) (evs : list event) :
  forall w,
  (returned_reductions (calls (run self evs w).2)
   <= returned_reductions (calls w) + 1)%nat.
Proof.
  induction evs as [|ev evs IH]; intros w; simpl; [lia|].
  assert (Hread : forall r w1, dimensionality self w = (r, w1) ->
            (returned_reductions (calls (run self evs w1).2)
             <= returned_reductions (calls w) + 1)%nat).
  { intros r w1 E. destruct (heap w !! self) as [o|] eqn:Ho.
    - pose proof (dimensionality_cases self o w Ho) as Hc.
      destruct (_dimensionality o) as [d|] eqn:Ec.
      + rewrite Hc in E. injection E as _ <-. apply IH.
      + destruct (_get_dimensionality (registries w (cls o)) (_units o)) as [d|e].
        * destruct Hc as (w' & Hd & Hcache & _ & Hcalls).
          rewrite Hd in E. injection E as _ <-.
          destruct (run_cached self d evs w' Hcache) as (_ & -> & _).
          rewrite Hcalls, returned_reductions_app. simpl. lia.
        * destruct Hc as (w' & Hd & _ & _ & Hcalls).
          rewrite Hd in E. injection E as _ <-.
          specialize (IH w'). rewrite Hcalls, returned_reductions_app in IH.
          simpl in IH. lia.
    - rewrite (dimensionality_dangling _ _ Ho) in E. injection E as _ <-.
      apply IH. }
  destruct ev as [| |rs].
  - destruct (dimensionality self w) as [r w1] eqn:E.
    specialize (Hread r w1 eq_refl).
    destruct (run self evs w1) as [rs w2]. exact Hread.
  - unfold dimensionless. monad_unfold.
    destruct (dimensionality self w) as [[d|e] w1] eqn:E;
      exact (Hread _ w1 eq_refl).
  - simpl. apply (IH {| heap := heap w; registries := rs; calls := calls w |}).
Qed.

(** C5, as the code has it: over any sequence of reads and changes of the
    registries, at most one call of the dimension reduction returns a value
    for the instance; once a read has returned a container, every later
    read returns that container, the registry is not called again and the
    cached value stays, whatever the registries become; a read whose
    reduction raises caches nothing. *)
Theorem dimensionality_cached_once (self : loc) (evs : list event) (w : world) :
  (returned_reductions (calls (run self evs w).2)
   <= returned_reductions (calls w) + 1)%nat
  /\ (forall d w1, dimensionality self w = (Ok d, w1) ->
      Forall (eq (Ok d)) (run self evs w1).1
      /\ calls (run self evs w1).2 = calls w1
      /\ cached (run self evs w1).2 self = Some d)
  /\ (forall e w1, dimensionality self w = (Raise e, w1) ->
      cached w1 self = cached w self).
Proof.
  split; [apply run_returned_reductions|split].
  - intros d w1 E. apply run_cached. now apply dimensionality_ok_cached with w.
  - intros e w1 E. destruct (heap w !! self) as [o|] eqn:Ho.
    + pose proof (dimensionality_cases self o w Ho) as Hc.
      destruct (_dimensionality o) as [d|] eqn:Ec.
      * rewrite Hc in E. discriminate.
      * destruct (_get_dimensionality (registries w (cls o)) (_units o)).
        -- destruct Hc as (w' & Hd & _). rewrite Hd in E. discriminate.
        -- destruct Hc as (w' & Hd & Hh & _). rewrite Hd in E.
           injection E as _ <-. unfold cached. now rewrite Hh.
    + rewrite (dimensionality_dangling _ _ Ho) in E. now injection E as _ <-.
Qed.

(** * The methods on the small registry *)

Module Examples.
Import Demo.
#[local] Existing Instance Demo.collaborators.

(** The compatibility examples of the specification. *)
Example meter_foot_compatible :
  (is_compatible_with meter (VUnit foot) [] [] w0).1 = Ok true.
Proof. vm_compute. reflexivity. Qed.

Example meter_second_incompatible :
  (is_compatible_with meter (VUnit second) [] [] w0).1 = Ok false.
Proof. vm_compute. reflexivity. Qed.

Example meter_number_incompatible :
  (is_compatible_with meter (VNum NInt (2 # 1)) [] [] w0).1 = Ok false.
Proof. vm_compute. reflexivity. Qed.

Example dimensionless_number_compatible :
  (is_compatible_with none (VNum NInt (2 # 1)) [] [] w0).1 = Ok true.
Proof. vm_compute. reflexivity. Qed.

(** The conversion examples of the specification. *)
Example kilometer_from_meters :
  (m_from kilometer (VQuantity 0%nat (VNum NInt (1000 # 1)) (PContainer {[ "meter" := 1 ]}))
     true "value" w0).1 = Ok (VNum NFloat 1).
Proof. vm_compute. reflexivity. Qed.

Example kilometer_from_number_strict :
  (from_ kilometer (VNum NInt (5 # 1)) true "value" w0).1
  = Raise (ValueError "5 must be a Quantity").
Proof. vm_compute. reflexivity. Qed.

Example kilometer_from_number :
  (from_ kilometer (VNum NInt (5 # 1)) false "value" w0).1
  = Ok (VQuantity 0%nat (VNum NInt (5 # 1)) (PContainer {[ "kilometer" := 1 ]})).
Proof. vm_compute. reflexivity. Qed.

(** A one-element tuple is named by its element. *)
Example kilometer_from_singleton_strict :
  (from_ kilometer (VTuple [VNum NInt (5 # 1)]) true "value" w0).1
  = Raise (ValueError "5 must be a Quantity").
Proof. vm_compute. reflexivity. Qed.

Example add_declined :
  (__array_ufunc__ meter add "__call__" [VUnit meter; VNum NInt (3 # 1)] [] w0).1
  = Ok VNotImplemented.
Proof. vm_compute. reflexivity. Qed.

Example series_declined :
  (__array_ufunc__ meter multiply "__call__" [VUnit meter; VObject series] [] w0).1
  = Ok VNotImplemented.
Proof. vm_compute. reflexivity. Qed.

(** An equal Unit that is another object is not replaced. *)
Example other_object_kept :
  ((l ← __init__ 0%nat (VUnit meter);
    __array_ufunc__ meter multiply "__call__" [VUnit l; VUnit meter] []) w0).1
  = Ok (VTuple [VStr "multiply";
                VTuple [VUnit 8%positive;
                        VQuantity 0%nat (VNum NInt 1) (PContainer {[ "meter" := 1 ]})];
                VTuple []]).
Proof. vm_compute. reflexivity. Qed.

(** A Unit compared with itself reads the registry once: the second read
    finds the value the first one cached. *)
Example self_comparison_reads_once :
  (is_compatible_with meter (VUnit meter) [] [] w0).1 = Ok true
  /\ calls (is_compatible_with meter (VUnit meter) [] [] w0).2
     = [CallGetDimensionality 0%nat (PContainer {[ "meter" := 1 ]}) true].
Proof. split; vm_compute; reflexivity. Qed.

(** C4 fails on the code: with no locale at all, the dimensionless unit
    formatted with the short-form flag gives the empty string, not an
    error. *)
Lemma format_babel_counterexample :
  fmt_locale (registries w0 0%nat) = None
  /\ (format_babel none "~" None [] w0).1 = Ok "".
Proof. split; vm_compute; reflexivity. Qed.

(** C5 fails on the code: the registry does not define furlong, each read of
    the dimensionality raises, nothing is cached, and two reads call the
    dimension reduction twice. *)
Lemma dimensionality_counterexample :
  (run furlong [EvRead; EvRead] w0).1
  = [Raise (OtherError "UndefinedUnitError"); Raise (OtherError "UndefinedUnitError")]
  /\ reductions (calls w0) = 0%nat
  /\ reductions (calls (run furlong [EvRead; EvRead] w0).2) = 2%nat.
Proof. repeat split; vm_compute; reflexivity. Qed.

(** C7 fails on the code: self given as a keyword operand is passed on as it
    is, and an operand of an upcast type that has no array hook does not
    make the hook decline. *)
Lemma array_ufunc_counterexample :
  (__array_ufunc__ meter multiply "__call__"
     [VUnit meter; VNum NInt (3 # 1)] [("where", VUnit meter)] w0).1
  = Ok (VTuple [VStr "multiply";
                VTuple [VQuantity 0%nat (VNum NInt 1) (PContainer {[ "meter" := 1 ]});
                        VNum NInt (3 # 1)];
                VTuple [VUnit meter]])
  /\ is_upcast_type (TyForeign (f_type bare_series)) = true
  /\ (__array_ufunc__ meter multiply "__call__"
        [VUnit meter; VObject bare_series] [] w0).1
     = Ok (VTuple [VStr "multiply";
                   VTuple [VQuantity 0%nat (VNum NInt 1) (PContainer {[ "meter" := 1 ]});
                           VObject bare_series];
                   VTuple []]).
Proof. repeat split; vm_compute; reflexivity. Qed.

(** C9 fails on the code: the container of radian is not empty, and the
    Unit built from it is dimensionless; so is meter per foot. *)
Lemma dimensionless_counterexample :
  ({[ "radian" := 1 ]} : UnitsContainer) <> ∅
  /\ ((l ← __init__ 0%nat (VContainer {[ "radian" := 1 ]}); dimensionless l) w0).1
     = Ok true
  /\ ((l ← __init__ 0%nat (VContainer {[ "meter" := 1; "foot" := -1 # 1 ]});
       dimensionless l) w0).1 = Ok true.
Proof.
  split; [|split; vm_compute; reflexivity].
  intros E. apply (f_equal (fun m : UnitsContainer => m !! "radian")) in E.
  vm_compute in E. discriminate.
Qed.

(** The theorems above, applied on the small registry. *)

Lemma is_compatible_with_tiers_witness :
  is_compatible_with meter (VUnit foot) [] [] w0
  = (d1 ← dimensionality meter; d2 ← dimensionality foot; mret (uc_eqb d1 d2)) w0
  /\ is_compatible_with meter (VUnit second) [] [] w_ctx
     = match quantity_to w_ctx (Quantity 0%nat (VNum NInt 1) (PContainer {[ "meter" := 1 ]}))
               (VUnit second) [] [] with
       | Ok _ => (Ok true, w_ctx)
       | Raise DimensionalityError => (Ok false, w_ctx)
       | Raise e => (Raise e, w_ctx)
       end
  /\ is_compatible_with meter (VNum NInt (2 # 1)) [] [] w_bare
     = dimensionless meter w_bare.
Proof.
  split; [|split].
  - exact (is_compatible_with_tiers meter (unit_of {[ "meter" := 1 ]}) (VUnit foot)
             [] [] w0 eq_refl).
  - exact (is_compatible_with_tiers meter (unit_of {[ "meter" := 1 ]}) (VUnit second)
             [] [] w_ctx eq_refl).
  - exact (is_compatible_with_tiers meter (unit_of {[ "meter" := 1 ]})
             (VNum NInt (2 # 1)) [] [] w_bare eq_refl).
Defined.

(** C1 fails on the code: inside the block of a context without rules the
    stack of active contexts is not empty, and yet no conversion is tried.
    The conversion of one meter into the container of meter succeeds, so
    that the answer of the first tier is True, as it is inside a context
    that has a rule; the check returns the answer of the last tier, False,
    meter not being dimensionless. *)
Lemma is_compatible_with_counterexample :
  _active_ctx (registries w_bare 0%nat) <> []
  /\ (exists q,
        quantity_to w_bare (Quantity 0%nat (VNum NInt 1) (PContainer {[ "meter" := 1 ]}))
          (VContainer {[ "meter" := 1 ]}) [] [] = Ok q)
  /\ (is_compatible_with meter (VContainer {[ "meter" := 1 ]}) [] [] w_bare).1
     = Ok false
  /\ (is_compatible_with meter (VContainer {[ "meter" := 1 ]}) [] [] w_ctx).1
     = Ok true.
Proof.
  split; [discriminate|]. split; [eexists; vm_compute; reflexivity|].
  split; vm_compute; reflexivity.
Qed.

Lemma mul_truediv_units_witness :
  exists (l : loc) (w1 : world) (c : UnitsContainer),
    __mul__ meter (VUnit second) w0 = (Ok (VUnit l), w1)
    /\ heap w1 !! l = Some {| cls := 0%nat; _units := PContainer c;
                              __used := false; _dimensionality := None |}
    /\ (forall k, exponent c k
                  == exponent {[ "meter" := 1 ]} k + exponent {[ "second" := 1 ]} k).
Proof.
  destruct (mul_truediv_units meter second
              (unit_of {[ "meter" := 1 ]}) (unit_of {[ "second" := 1 ]})
              {[ "meter" := 1 ]} {[ "second" := 1 ]} w0
              eq_refl eq_refl eq_refl eq_refl eq_refl)
    as ((l & w1 & c & E & _ & Hl & Hc & _) & _).
  exists l, w1, c. repeat split; assumption.
Defined.

(** C2 fails on the code: [Unit.__init__] keeps a unit-definition object as
    it is, and the product and the quotient of the Unit that holds it with a
    Unit of the same class raise a TypeError, the definition having no
    arithmetic, instead of giving a Unit of summed exponents. *)
Lemma mul_truediv_counterexample :
  heap (__init__ 0%nat (VDefinition meter_definition) w0).2 !! 8%positive
  = Some {| cls := 0%nat; _units := PDefinition meter_definition;
            __used := false; _dimensionality := None |}
  /\ cls <$> heap w0 !! second = Some 0%nat
  /\ (exists msg,
        ((l ← __init__ 0%nat (VDefinition meter_definition);
          __mul__ l (VUnit second)) w0).1 = Raise (TypeError msg))
  /\ (exists msg,
        ((l ← __init__ 0%nat (VDefinition meter_definition);
          __truediv__ l (VUnit second)) w0).1 = Raise (TypeError msg)).
Proof.
  split; [vm_compute; reflexivity|]. split; [vm_compute; reflexivity|].
  split; eexists; vm_compute; reflexivity.
Qed.

Lemma pow_units_witness :
  (exists (l : loc) (w1 : world) (c' : UnitsContainer),
      __pow__ meter (VNum NInt (2 # 1)) w0 = (Ok (VUnit l), w1)
      /\ heap w1 !! l = Some {| cls := 0%nat; _units := PContainer c';
                                __used := false; _dimensionality := None |}
      /\ (forall k, exponent c' k == exponent {[ "meter" := 1 ]} k * (2 # 1)))
  /\ __pow__ meter (VStr "x") w0
     = (Raise (TypeError "Cannot power Unit by <class 'str'>"), w0).
Proof.
  destruct (pow_units meter (unit_of {[ "meter" := 1 ]}) w0 eq_refl) as (Hc & Hx).
  split.
  - destruct (Hc {[ "meter" := 1 ]} eq_refl) as (Hn & _).
    destruct (Hn NInt (2 # 1)) as (l & w1 & c' & E & _ & Hl & _ & He & _).
    exists l, w1, c'. repeat split; assumption.
  - apply (Hx (VStr "x") TyStr); reflexivity.
Defined.

(** C3 fails on the code: the power of a Unit that holds a unit-definition
    object by the number 2 raises a TypeError, the definition having no
    arithmetic, instead of giving a Unit of scaled exponents. *)
Lemma pow_counterexample :
  heap (__init__ 0%nat (VDefinition meter_definition) w0).2 !! 8%positive
  = Some {| cls := 0%nat; _units := PDefinition meter_definition;
            __used := false; _dimensionality := None |}
  /\ (exists msg,
        ((l ← __init__ 0%nat (VDefinition meter_definition);
          __pow__ l (VNum NInt (2 # 1))) w0).1 = Raise (TypeError msg)).
Proof. split; [vm_compute; reflexivity|]. eexists. vm_compute. reflexivity. Qed.

(** An array is of a class of NUMERIC_TYPES: it is accepted as an exponent,
    and the power is a new Unit. *)
Example pow_by_array :
  is_numeric (VObject ones) = true
  /\ (__pow__ meter (VObject ones) w0).1 = Ok (VUnit 8%positive).
Proof. split; vm_compute; reflexivity. Qed.

Lemma format_babel_no_locale_witness :
  format_babel meter "" None [] w0 = (Raise missing_locale, w0).
Proof.
  destruct (format_babel_no_locale meter (unit_of {[ "meter" := 1 ]}) "" [] w0
              eq_refl eq_refl) as (_ & Hplain & _).
  apply Hplain. reflexivity.
Defined.

Lemma dimensionality_cached_once_witness :
  Forall (eq (Ok ({[ "[length]" := 1 ]} : UnitsContainer)))
    (run meter [EvRead; EvRegistries (fun _ => reg_emptied); EvRead; EvDimensionless; EvRead]
       (dimensionality meter w0).2).1.
Proof.
  destruct (dimensionality_cached_once meter
              [EvRead; EvRegistries (fun _ => reg_emptied); EvRead; EvDimensionless; EvRead]
              w0) as (_ & Hhit & _).
  destruct (Hhit {[ "[length]" := 1 ]} (dimensionality meter w0).2 eq_refl)
    as (Hall & _).
  exact Hall.
Defined.

Lemma from__strict_tuple_witness :
  from_ kilometer (VTuple [VNum NInt 1; VNum NInt (2 # 1)]) true "value" w0
  = (Raise (TypeError "not all arguments converted during string formatting"), w0).
Proof.
  exact (from__strict_tuple kilometer (unit_of {[ "kilometer" := 1 ]})
           (VNum NInt 1) (VNum NInt (2 # 1)) [] "value" w0 eq_refl).
Defined.

Lemma array_ufunc_dispatch_witness :
  __array_ufunc__ meter multiply "__call__" [VUnit meter; VNum NInt (3 # 1)] [] w0
  = (ufunc_call w0 multiply
       [VQuantity 0%nat (VNum NInt 1) (PContainer {[ "meter" := 1 ]}); VNum NInt (3 # 1)] [], w0).
Proof.
  assert (Hb : Forall (bound w0)
                   ([VUnit meter; VNum NInt (3 # 1)] ++ map snd ([] : kwargs))%list).
  { repeat constructor. now exists (unit_of {[ "meter" := 1 ]}). }
  destruct (array_ufunc_dispatch meter (unit_of {[ "meter" := 1 ]}) multiply "__call__"
              [VUnit meter; VNum NInt (3 # 1)] [] w0 eq_refl Hb) as (_ & _ & _ & Hgo).
  apply Hgo; [reflexivity| |].
  - intros (arg & t & Hin & Hh & Ht & Hu).
    destruct Hin as [<-|[<-|[]]]; [|discriminate].
    injection Ht as <-. discriminate.
  - do 3 apply list_elem_of_further. apply list_elem_of_here.
Defined.



End Examples.

(** * Further properties *)

(** ** Construction and copies *)

(** X1: [Unit(C)] for a container C creates a new object and changes no
    existing one; the new Unit holds C, is unused and has no cached
    dimensionality; [Unit(Unit(C))], for the class of any registry, is
    again a new object that holds C. *)
Theorem init_container_round_trip (r r' : reg_id) (c : UnitsContainer) (w : world) :
  exists (l : loc) (w1 : world) (l2 : loc) (w2 : world),
    __init__ r (VContainer c) w = (Ok l, w1)
    /\ heap w !! l = None
    /\ heap w1 !! l = Some {| cls := r; _units := PContainer c;
                              __used := false; _dimensionality := None |}
    /\ (forall l', l' <> l -> heap w1 !! l' = heap w !! l')
    /\ __init__ r' (VUnit l) w1 = (Ok l2, w2)
    /\ l2 <> l
    /\ heap w2 !! l2 = Some {| cls := r'; _units := PContainer c;
                               __used := false; _dimensionality := None |}
    /\ heap w2 !! l = Some {| cls := r; _units := PContainer c;
                              __used := false; _dimensionality := None |}.
Proof.
  set (l := fresh (dom (heap w))).
  set (w1 := store l (fresh_unit r (PContainer c)) w).
  set (l2 := fresh (dom (heap w1))).
  assert (H1 : heap w1 !! l = Some (fresh_unit r (PContainer c)))
    by apply lookup_insert_eq.
  assert (Hne : l2 <> l).
  { intros E. pose proof (fresh_loc_free w1) as Hf. fold l2 in Hf.
    rewrite E, H1 in Hf. discriminate. }
  exists l, w1, l2, (store l2 (fresh_unit r' (PContainer c)) w1).
  repeat split.
  - apply fresh_loc_free.
  - exact H1.
  - intros l' Hl'. now apply store_lookup_ne.
  - simpl. now rewrite (bind_ok _ _ _ _ _ (get_unit_ok _ _ _ H1)).
  - exact Hne.
  - apply lookup_insert_eq.
  - rewrite store_lookup_ne by congruence. exact H1.
Qed.

(** X2: [Unit(x)] for an x that is not a container, a definition, a string
    or a Unit (a number, None, a tuple, a Quantity, any other object) raises
    a TypeError whose message names the type of x, and creates nothing. *)
Theorem init_rejects_other_types (r : reg_id) (v : value) (w : world) :
  match v with
  | VContainer _ | VDefinition _ | VStr _ | VUnit _ => True
  | _ =>
      exists t, type_of v w = (Ok t, w)
                /\ __init__ r v w
                   = (Raise (TypeError
                               ("units must be of type str, Unit or UnitsContainer; not "
                                ++ type_repr t ++ ".")), w)
  end.
Proof. destruct v; try exact I; eexists; split; reflexivity. Qed.

Section Copies.
Context `{Collaborators}.

Lemma copy_unit_eval (self : loc) (o : UnitObj) (w : world) :
  heap w !! self = Some o ->
  exists (l : loc) (w1 : world),
    __copy__ self w = (Ok l, w1)
    /\ l <> self
    /\ heap w1 !! l = Some {| cls := cls o; _units := _units o;
                              __used := __used o; _dimensionality := None |}
    /\ heap w1 !! self = Some o.
Proof.
  intros Ho. set (l := fresh (dom (heap w))).
  assert (Hfree : heap w !! l = None) by apply fresh_loc_free.
  assert (Hne : l <> self) by (intros E; rewrite E, Ho in Hfree; discriminate).
  assert (Hinit : __init__ (cls o) (payload_value (_units o)) w
                  = (Ok l, store l (fresh_unit (cls o) (_units o)) w)).
  { destruct (_units o); reflexivity. }
  eexists l, _. split.
  - unfold __copy__. rewrite (bind_ok _ _ _ _ _ (get_unit_ok _ _ _ Ho)).
    rewrite (bind_ok _ _ _ _ _ Hinit). reflexivity.
  - repeat split; [exact Hne| |]; simpl.
    + rewrite lookup_alter_eq, lookup_insert_eq. reflexivity.
    + rewrite lookup_alter_ne by congruence.
      rewrite lookup_insert_ne by congruence. exact Ho.
Qed.

(** X3: [copy.copy(u)] is a new object of the class of u that holds the
    payload of u and its used flag, but not its cached dimensionality; u and
    every other object stay as they were, and the registry is not called. *)
Theorem copy_is_fresh (self : loc) (o : UnitObj) (w : world) :
  heap w !! self = Some o ->
  exists (l : loc) (w1 : world),
    __copy__ self w = (Ok l, w1)
    /\ l <> self
    /\ heap w !! l = None
    /\ heap w1 !! l = Some {| cls := cls o; _units := _units o;
                              __used := __used o; _dimensionality := None |}
    /\ (forall l', l' <> l -> heap w1 !! l' = heap w !! l')
    /\ registries w1 = registries w
    /\ calls w1 = calls w.
Proof.
  intros Ho. set (l := fresh (dom (heap w))).
  assert (Hfree : heap w !! l = None) by apply fresh_loc_free.
  assert (Hinit : __init__ (cls o) (payload_value (_units o)) w
                  = (Ok l, store l (fresh_unit (cls o) (_units o)) w)).
  { destruct (_units o); reflexivity. }
  eexists l, _. split.
  - unfold __copy__. rewrite (bind_ok _ _ _ _ _ (get_unit_ok _ _ _ Ho)).
    rewrite (bind_ok _ _ _ _ _ Hinit). reflexivity.
  - repeat split.
    + intros E. rewrite E, Ho in Hfree. discriminate.
    + exact Hfree.
    + simpl. rewrite lookup_alter_eq, lookup_insert_eq. reflexivity.
    + intros l' Hl'. simpl. rewrite lookup_alter_ne by congruence.
      now apply lookup_insert_ne.
Qed.

End Copies.

(** ** The cache and the rest of the heap *)

(** A read of the property depends only on the object and the registries. *)
Lemma dimensionality_determined (self : loc) (w1 w2 : world) :
  heap w1 !! self = heap w2 !! self -> registries w1 = registries w2 ->
  (dimensionality self w1).1 = (dimensionality self w2).1.
Proof.
  intros Hh Hr. destruct (heap w2 !! self) as [o|] eqn:Ho.
  - pose proof (dimensionality_cases self o w1 Hh) as H1.
    pose proof (dimensionality_cases self o w2 Ho) as H2.
    rewrite Hr in H1.
    destruct (_dimensionality o); [now rewrite H1, H2|].
    destruct (_get_dimensionality (registries w2 (cls o)) (_units o));
      destruct H1 as (? & -> & _); destruct H2 as (? & -> & _); reflexivity.
  - now rewrite (dimensionality_dangling _ _ Hh), (dimensionality_dangling _ _ Ho).
Qed.

(** X4: a read of [u.dimensionality] changes nothing but the cache slot of
    u: every other object, the class, payload and used flag of u, a value
    already cached and the registries are as before. *)
Theorem dimensionality_frame (self : loc) (o : UnitObj) (w w' : world)
    (r : result UnitsContainer) :
  heap w !! self = Some o ->
  dimensionality self w = (r, w') ->
  (forall l, l <> self -> heap w' !! l = heap w !! l)
  /\ (exists o', heap w' !! self = Some o'
                 /\ cls o' = cls o /\ _units o' = _units o /\ __used o' = __used o
                 /\ match _dimensionality o with
                    | Some d => _dimensionality o' = Some d
                    | None => True
                    end)
  /\ registries w' = registries w.
Proof.
  intros Ho E. destruct (_dimensionality o) as [d|] eqn:Ec.
  - rewrite (dimensionality_cached self o d w Ho Ec) in E. injection E as _ <-.
    repeat split. exists o. repeat split; assumption.
  - destruct (_get_dimensionality (registries w (cls o)) (_units o)) as [d|e] eqn:Ed.
    + rewrite (dimensionality_first_read self o d w Ho Ec Ed) in E.
      injection E as _ <-. repeat split.
      * intros l Hl. simpl. now apply lookup_insert_ne.
      * eexists. split; [apply lookup_insert_eq|]. repeat split.
    + pose proof (dimensionality_cases self o w Ho) as Hc. rewrite Ec, Ed in Hc.
      destruct Hc as (w1 & Hd & Hh & Hr & _). rewrite Hd in E.
      injection E as _ <-. repeat split; [intros; now rewrite Hh| |exact Hr].
      exists o. rewrite Hh. repeat split. exact Ho.
Qed.

(** ** Equality of containers *)

Lemma opt_Qeqb_refl (x : option Q) : opt_Qeqb x x = true.
Proof. destruct x; simpl; [apply Qeq_bool_refl|reflexivity]. Qed.

Lemma opt_Qeqb_sym (x y : option Q) : opt_Qeqb x y = opt_Qeqb y x.
Proof.
  destruct x as [p|], y as [q|]; simpl; try reflexivity.
  destruct (Qeq_bool p q) eqn:E1, (Qeq_bool q p) eqn:E2; try reflexivity.
  - apply Qeq_bool_eq in E1. symmetry in E1. apply Qeq_eq_bool in E1. congruence.
  - apply Qeq_bool_eq in E2. symmetry in E2. apply Qeq_eq_bool in E2. congruence.
Qed.

Lemma uc_eqb_spec (a b : UnitsContainer) :
  uc_eqb a b = true <-> forall k, opt_Qeqb (a !! k) (b !! k) = true.
Proof.
  unfold uc_eqb. rewrite List.forallb_forall. split.
  - intros Hall k. destruct (decide (k ∈ dom a ∪ dom b)) as [Hin|Hout].
    + apply Hall. apply list_elem_of_In. now apply elem_of_elements.
    + apply not_elem_of_union in Hout as [Ha Hb].
      apply not_elem_of_dom in Ha, Hb. now rewrite Ha, Hb.
  - intros Hall k _. apply Hall.
Qed.

Lemma uc_eqb_refl (a : UnitsContainer) : uc_eqb a a = true.
Proof. apply uc_eqb_spec. intros k. apply opt_Qeqb_refl. Qed.

Lemma uc_eqb_sym (a b : UnitsContainer) : uc_eqb a b = uc_eqb b a.
Proof.
  destruct (uc_eqb a b) eqn:E1, (uc_eqb b a) eqn:E2; try reflexivity.
  - rewrite uc_eqb_spec in E1. assert (uc_eqb b a = true); [|congruence].
    apply uc_eqb_spec. intros k. now rewrite opt_Qeqb_sym.
  - rewrite uc_eqb_spec in E2. assert (uc_eqb a b = true); [|congruence].
    apply uc_eqb_spec. intros k. now rewrite opt_Qeqb_sym.
Qed.

(** ** Compatibility of two Units *)

Section CompatibleUnits.
Context `{Collaborators}.

Lemma is_compatible_with_unit_eval (a b : loc) (oa : UnitObj) (kw : kwargs)
    (w : world) :
  heap w !! a = Some oa -> _active_ctx (registries w (cls oa)) = [] ->
  is_compatible_with a (VUnit b) [] kw w
  = (d1 ← dimensionality a; d2 ← dimensionality b; mret (uc_eqb d1 d2)) w.
Proof.
  intros Ha Hs. unfold is_compatible_with.
  rewrite (bind_ok _ _ _ _ _ (get_unit_ok _ _ _ Ha)).
  rewrite (bind_ok _ _ _ _ _ (get_registry_ok _ _)).
  now rewrite Hs.
Qed.

(** Reading one Unit does not change what a read of another, or of the same
    one, returns. *)
Lemma read_after_read (a b : loc) (da db : UnitsContainer) (w wa : world) :
  dimensionality a w = (Ok da, wa) -> (dimensionality b w).1 = Ok db ->
  (dimensionality b wa).1 = Ok db.
Proof.
  intros Ea Eb. destruct (decide (b = a)) as [->|Hne].
  - rewrite Ea in Eb. simpl in Eb. injection Eb as <-.
    now rewrite (dimensionality_hit _ _ _ (dimensionality_ok_cached _ _ _ _ Ea)).
  - destruct (heap w !! a) as [oa|] eqn:Ha.
    + destruct (dimensionality_frame a oa w wa _ Ha Ea) as (Hf & _ & Hr).
      rewrite <- Eb. apply dimensionality_determined; [now apply Hf|exact Hr].
    + rewrite (dimensionality_dangling _ _ Ha) in Ea. discriminate.
Qed.

(** X5: without contexts, compatibility of two Units is symmetric: when the
    dimensionality of both can be read, [a.is_compatible_with(b)] and
    [b.is_compatible_with(a)] both return the comparison of the two
    dimensionalities, whatever is cached and also when a and b are the same
    object. *)
Theorem is_compatible_with_symmetric (a b : loc) (oa ob : UnitObj)
    (da db : UnitsContainer) (w : world) :
  heap w !! a = Some oa -> heap w !! b = Some ob ->
  _active_ctx (registries w (cls oa)) = [] ->
  _active_ctx (registries w (cls ob)) = [] ->
  (dimensionality a w).1 = Ok da -> (dimensionality b w).1 = Ok db ->
  (is_compatible_with a (VUnit b) [] [] w).1 = Ok (uc_eqb da db)
  /\ (is_compatible_with b (VUnit a) [] [] w).1 = Ok (uc_eqb da db).
Proof.
  intros Ha Hb Hsa Hsb Ea Eb. split.
  - rewrite (is_compatible_with_unit_eval a b oa [] w Ha Hsa).
    destruct (dimensionality a w) as [ra wa] eqn:Da. simpl in Ea. subst ra.
    rewrite (bind_ok _ _ _ _ _ Da).
    pose proof (read_after_read a b da db w wa Da Eb) as Eb'.
    destruct (dimensionality b wa) as [rb wb] eqn:Db. simpl in Eb'. subst rb.
    now rewrite (bind_ok _ _ _ _ _ Db).
  - rewrite (is_compatible_with_unit_eval b a ob [] w Hb Hsb).
    destruct (dimensionality b w) as [rb wb] eqn:Db. simpl in Eb. subst rb.
    rewrite (bind_ok _ _ _ _ _ Db).
    pose proof (read_after_read b a db da w wb Db Ea) as Ea'.
    destruct (dimensionality a wb) as [ra wa] eqn:Da. simpl in Ea'. subst ra.
    rewrite (bind_ok _ _ _ _ _ Da). simpl. now rewrite uc_eqb_sym.
Qed.

(** X6: without contexts, a Unit whose dimensionality can be read is
    compatible with itself, and the check calls the dimension reduction of
    the registry at most once: the second read finds the cached value. *)
Theorem is_compatible_with_itself (a : loc) (oa : UnitObj) (d : UnitsContainer)
    (w : world) :
  heap w !! a = Some oa ->
  _active_ctx (registries w (cls oa)) = [] ->
  (dimensionality a w).1 = Ok d ->
  (is_compatible_with a (VUnit a) [] [] w).1 = Ok true
  /\ (reductions (calls (is_compatible_with a (VUnit a) [] [] w).2)
      <= reductions (calls w) + 1)%nat.
Proof.
  intros Ha Hs Ea.
  rewrite (is_compatible_with_unit_eval a a oa [] w Ha Hs).
  destruct (dimensionality a w) as [ra wa] eqn:Da. simpl in Ea. subst ra.
  rewrite (bind_ok _ _ _ _ _ Da).
  rewrite (bind_ok _ _ _ _ _
             (dimensionality_hit _ _ _ (dimensionality_ok_cached _ _ _ _ Da))).
  simpl. split; [now rewrite uc_eqb_refl|].
  pose proof (dimensionality_cases a oa w Ha) as Hc.
  destruct (_dimensionality oa).
  - rewrite Hc in Da. injection Da as _ <-. lia.
  - destruct (_get_dimensionality (registries w (cls oa)) (_units oa)).
    + destruct Hc as (w' & Hd & _ & _ & Hcalls). rewrite Hd in Da.
      injection Da as _ <-. rewrite Hcalls, reductions_app. lia.
    + destruct Hc as (w' & Hd & _). rewrite Hd in Da. discriminate.
Qed.

(** X7: keyword values for contexts alone never start a conversion: with no
    context named and an empty active-context stack, the result does not
    depend on [ctx_kwargs]. *)
Theorem is_compatible_with_ignores_kwargs (self : loc) (o : UnitObj)
    (other : value) (kw : kwargs) (w : world) :
  heap w !! self = Some o ->
  _active_ctx (registries w (cls o)) = [] ->
  is_compatible_with self other [] kw w = is_compatible_with self other [] [] w.
Proof.
  intros Ho Hs. unfold is_compatible_with.
  rewrite !(bind_ok _ _ _ _ _ (get_unit_ok _ _ _ Ho)).
  rewrite !(bind_ok _ _ _ _ _ (get_registry_ok _ _)).
  now rewrite Hs.
Qed.

End CompatibleUnits.

(** ** Arithmetic with numbers and containers *)

Section NumberArithmetic.
Context `{Collaborators}.

(** X8: multiplying a Unit by a number equal to 1, from either side, gives
    the Quantity of that number and the units of the Unit directly, without
    any Quantity arithmetic; for any other number the product is that of
    the unit-magnitude Quantity with the number. *)
Theorem mul_by_number (self : loc) (o : UnitObj) (c : numclass) (n : num)
    (w : world) :
  heap w !! self = Some o ->
  __mul__ self (VNum c n) w
  = (if Qeq_bool n 1 then Ok (VQuantity (cls o) (VNum c n) (_units o))
     else quantity_mul w (VQuantity (cls o) (VNum NInt 1) (_units o)) (VNum c n), w)
  /\ py_mul (VNum c n) self w = __mul__ self (VNum c n) w.
Proof.
  intros Ho. split; [|reflexivity]. unfold __mul__.
  rewrite (bind_ok _ _ _ _ _ (get_unit_ok _ _ _ Ho)).
  rewrite (bind_ok _ _ _ _ _ (_check_plain self o (VNum c n) w Ho)).
  destruct (Qeq_bool n 1); reflexivity.
Qed.


(** X10: the reflected division [x / u] of a Unit u holding the container a:
    an x of one of the numeric types, a plain number n (also n = 0) or an
    object of another class of the tuple such as an array, gives the
    Quantity of x in the units with every exponent of a negated; a container
    c gives a new Unit of the class of u holding c divided by a; anything
    else (a string, None, a tuple, a Unit, a Quantity, an object of a class
    that is not numeric) is declined with NotImplemented. *)
Theorem rtruediv_cases (self : loc) (o : UnitObj) (a : UnitsContainer) (w : world) :
  heap w !! self = Some o -> _units o = PContainer a ->
  (forall x, is_numeric x = true ->
             __rtruediv__ self x w
             = (Ok (VQuantity (cls o) x (PContainer (uc_pow a (-1 # 1)))), w))
  /\ (forall c n, is_numeric (VNum c n) = true)
  /\ (forall f, is_numeric (VObject f) = numeric_types (f_type f))
  /\ (forall k, exponent (uc_pow a (-1 # 1)) k == exponent a k * (-1 # 1))
  /\ (forall c, exists (l : loc) (w1 : world),
                __rtruediv__ self (VContainer c) w = (Ok (VUnit l), w1)
                /\ heap w !! l = None
                /\ heap w1 !! l
                   = Some {| cls := cls o; _units := PContainer (uc_div c a);
                             __used := false; _dimensionality := None |})
  /\ (forall x, is_numeric x = false ->
                match x with
                | VContainer _ => True
                | _ => __rtruediv__ self x w = (Ok VNotImplemented, w)
                end).
Proof.
  intros Ho Ea. repeat split.
  - intros x Hx. unfold __rtruediv__.
    rewrite (bind_ok _ _ _ _ _ (get_unit_ok _ _ _ Ho)). now rewrite Hx, Ea.
  - intros k. apply uc_pow_exponent.
  - intros c. eexists (fresh (dom (heap w))), _. split; [|split].
    + unfold __rtruediv__.
      rewrite (bind_ok _ _ _ _ _ (get_unit_ok _ _ _ Ho)). rewrite Ea. reflexivity.
    + apply fresh_loc_free.
    + apply lookup_insert_eq.
  - intros x Hx. unfold __rtruediv__.
    destruct x; try exact I;
      rewrite (bind_ok _ _ _ _ _ (get_unit_ok _ _ _ Ho)); now rewrite Hx.
Qed.

End NumberArithmetic.

(** ** Products, quotients and equality of Units *)


Section UnitAlgebra.
Context `{Collaborators}.

Lemma mul_units_eval (self other : loc) (A B : UnitObj) (a b : UnitsContainer)
    (w : world) :
  heap w !! self = Some A -> heap w !! other = Some B ->
  cls A = cls B -> _units A = PContainer a -> _units B = PContainer b ->
  __mul__ self (VUnit other) w
  = (Ok (VUnit (fresh (dom (heap w)))),
     store (fresh (dom (heap w))) (fresh_unit (cls A) (PContainer (uc_mul a b))) w).
Proof.
  intros HA HB E Ea Eb.
  pose proof (_check_same_class _ _ _ _ _ HA HB E) as Hc.
  pose proof (isinstance_class_same _ _ _ HB) as Hi. rewrite <- E in Hi.
  unfold __mul__.
  rewrite (bind_ok _ _ _ _ _ (get_unit_ok _ _ _ HA)).
  rewrite (bind_ok _ _ _ _ _ Hc). rewrite (bind_ok _ _ _ _ _ Hi).
  rewrite (bind_ok _ _ _ _ _ (get_unit_ok _ _ _ HB)).
  rewrite Ea, Eb. reflexivity.
Qed.



(** X12: equality of two Units of one class is the equality of their
    containers (the same names with equal exponents): it does not depend on
    the order of the operands, a Unit is equal to itself and not different
    from itself, and neither the Quantity layer nor the registry is asked. *)
Theorem eq_units (self other : loc) (A B : UnitObj) (a b : UnitsContainer)
    (w : world) :
  heap w !! self = Some A -> heap w !! other = Some B ->
  cls A = cls B -> _units A = PContainer a -> _units B = PContainer b ->
  __eq__ self (VUnit other) w = (Ok (uc_eqb a b), w)
  /\ __eq__ other (VUnit self) w = (Ok (uc_eqb a b), w)
  /\ (uc_eqb a b = true <-> forall k, opt_Qeqb (a !! k) (b !! k) = true)
  /\ __eq__ self (VUnit self) w = (Ok true, w)
  /\ __ne__ self (VUnit self) w = (Ok false, w).
Proof.
  intros HA HB E Ea Eb.
  assert (Heq : forall x y X Y cx cy,
            heap w !! x = Some X -> heap w !! y = Some Y -> cls X = cls Y ->
            _units X = PContainer cx -> _units Y = PContainer cy ->
            __eq__ x (VUnit y) w = (Ok (uc_eqb cx cy), w)).
  { intros x y X Y cx cy HX HY EXY EX EY.
    pose proof (_check_same_class _ _ _ _ _ HX HY EXY) as Hc.
    pose proof (isinstance_class_same _ _ _ HY) as Hi. rewrite <- EXY in Hi.
    unfold __eq__.
    rewrite (bind_ok _ _ _ _ _ (get_unit_ok _ _ _ HX)).
    rewrite (bind_ok _ _ _ _ _ Hc). rewrite (bind_ok _ _ _ _ _ Hi).
    rewrite (bind_ok _ _ _ _ _ (get_unit_ok _ _ _ HY)).
    rewrite EX, EY. reflexivity. }
  repeat split.
  - now apply Heq with A B.
  - rewrite (Heq other self B A b a HB HA (eq_sym E) Eb Ea). now rewrite uc_eqb_sym.
  - apply uc_eqb_spec.
  - apply uc_eqb_spec.
  - rewrite (Heq self self A A a a HA HA eq_refl Ea Ea). now rewrite uc_eqb_refl.
  - unfold __ne__.
    rewrite (bind_ok _ _ _ _ _ (Heq self self A A a a HA HA eq_refl Ea Ea)).
    now rewrite uc_eqb_refl.
Qed.

End UnitAlgebra.

(** ** The operands the array hook passes on *)

Lemma substituted_length (self : loc) (q : value) (inputs : list value) :
  length (substituted self q inputs) = length inputs.
Proof. unfold substituted. apply length_map. Qed.

Lemma substituted_lookup (self : loc) (q : value) (inputs : list value) (i : nat)
    (a : value) :
  inputs !! i = Some a ->
  substituted self q inputs !! i = Some (if is_ a self then q else a).
Proof.
  revert i. induction inputs as [|x xs IH]; intros [|i]; simpl; try discriminate.
  - now intros [= ->].
  - apply IH.
Qed.

Lemma substituted_no_self (self : loc) (q : value) (inputs : list value) :
  is_ q self = false ->
  Forall (fun a => is_ a self = false) (substituted self q inputs).
Proof.
  intros Hq. induction inputs as [|x xs IH]; simpl; constructor; [|exact IH].
  destruct (is_ x self) eqn:E; assumption.
Qed.

Section ArrayOperands.
Context `{Collaborators}.

(** X13: whenever the operands are objects of the world, the array hook
    never raises by itself and never changes the world: it returns
    NotImplemented or what the ufunc returns.  The ufunc is called on as
    many positional operands as were given, each one in its place, self
    replaced by the unit-magnitude Quantity, so that no operand passed on is
    self. *)
Theorem array_ufunc_operands (self : loc) (o : UnitObj) (uf : ufunc)
    (method : string) (inputs : list value) (kw : kwargs) (w : world) :
  heap w !! self = Some o ->
  Forall (bound w) (inputs ++ map snd kw)%list ->
  let q := Quantity (cls o) (VNum NInt 1) (_units o) in
  (__array_ufunc__ self uf method inputs kw w = (Ok VNotImplemented, w)
   \/ __array_ufunc__ self uf method inputs kw w
      = (ufunc_call w uf (substituted self q inputs) kw, w))
  /\ length (substituted self q inputs) = length inputs
  /\ Forall (fun a => is_ a self = false) (substituted self q inputs)
  /\ (forall i a, inputs !! i = Some a ->
                  substituted self q inputs !! i = Some (if is_ a self then q else a)).
Proof.
  intros Ho Hb q. split; [|split; [|split]].
  - assert (Hf : Forall (bound w)
                   (List.filter has_array_ufunc (inputs ++ map snd kw)%list)).
    { rewrite List.Forall_forall in *. intros a Ha.
      apply List.filter_In in Ha. now apply Hb. }
    destruct (types_of_bound _ _ Hf) as [ts [Ets _]].
    unfold __array_ufunc__.
    rewrite (bind_ok _ _ _ _ _ (get_unit_ok _ _ _ Ho)).
    destruct (negb (String.eqb method "__call__")); [now left|].
    rewrite (bind_ok _ _ _ _ _ Ets).
    destruct (existsb is_upcast_type ts); [now left|].
    destruct (bool_decide (ufunc_name uf ∈ handled_ufuncs)); [now right|now left].
  - apply substituted_length.
  - now apply substituted_no_self.
  - intros i a. apply substituted_lookup.
Qed.

End ArrayOperands.

(** ** The container of symbols *)

(** The symbols inserted one after the other. *)
Lemma symbol_items_fold (r : reg_id) (g : string -> string)
    (items : list (string * num)) :
  forall (acc : UnitsContainer) (w : world),
  (forall k v, In (k, v) items -> _get_symbol (registries w r) k = Ok (g k)) ->
  exists w',
    symbol_items r items acc w
    = (Ok (foldl (fun m kv => <[g kv.1 := kv.2]> m) acc items), w')
    /\ heap w' = heap w /\ registries w' = registries w.
Proof.
  induction items as [|[k v] rest IH]; intros acc w Hg; simpl.
  - exists w. repeat split.
  - unfold log. monad_unfold. simpl.
    rewrite (Hg k v (or_introl eq_refl)).
    destruct (IH (<[g k := v]> acc)
                {| heap := heap w; registries := registries w;
                   calls := calls w ++ [CallGetSymbol r k] |}) as (w' & E & Hh & Hr).
    { intros k' v' Hin. apply (Hg k' v'). now right. }
    exists w'. repeat split; assumption.
Qed.

Lemma foldl_insert_miss (g : string -> string) (items : list (string * num))
    (s : string) :
  forall acc : UnitsContainer,
  (forall k v, In (k, v) items -> g k <> s) ->
  foldl (fun m kv => <[g kv.1 := kv.2]> m) acc items !! s = acc !! s.
Proof.
  induction items as [|[k v] rest IH]; intros acc Hs; simpl; [reflexivity|].
  rewrite IH by (intros k' v' Hin; apply (Hs k' v'); now right).
  apply lookup_insert_ne. apply (Hs k v). now left.
Qed.

Lemma foldl_insert_hit (g : string -> string) (items : list (string * num)) :
  forall (acc : UnitsContainer) (k : string) (v : num),
  NoDup (map (fun kv => g kv.1) items) -> In (k, v) items ->
  foldl (fun m kv => <[g kv.1 := kv.2]> m) acc items !! g k = Some v.
Proof.
  induction items as [|[k0 v0] rest IH]; intros acc k v Hnd Hin; simpl;
    [destruct Hin|].
  apply NoDup_cons in Hnd as [Hnot Hnd]. destruct Hin as [[= -> ->]|Hin].
  - rewrite foldl_insert_miss; [apply lookup_insert_eq|].
    intros k' v' Hin' E. apply Hnot. simpl. rewrite <- E.
    apply list_elem_of_In. apply (in_map (fun kv => g kv.1) rest (k', v')), Hin'.
  - now apply IH.
Qed.

(** X14: the short form replaces every name by its symbol: when the registry
    gives a symbol for every name of the container and no two names share a
    symbol, the container of symbols has, under the symbol of each name,
    the exponent of that name, and nothing else; the heap and the registries
    are untouched. *)
Theorem symbol_items_exponents (r : reg_id) (g : string -> string)
    (c : UnitsContainer) (w : world) :
  (forall k, k ∈ dom c -> _get_symbol (registries w r) k = Ok (g k)) ->
  (forall k1 k2, k1 ∈ dom c -> k2 ∈ dom c -> g k1 = g k2 -> k1 = k2) ->
  exists (c' : UnitsContainer) (w' : world),
    symbol_items r (map_to_list c) ∅ w = (Ok c', w')
    /\ heap w' = heap w /\ registries w' = registries w
    /\ (forall k, k ∈ dom c -> c' !! g k = c !! k)
    /\ (forall s, (forall k, k ∈ dom c -> g k <> s) -> c' !! s = None).
Proof.
  intros Hg Hinj.
  assert (Hin : forall k v, In (k, v) (map_to_list c) -> c !! k = Some v).
  { intros k v H. apply list_elem_of_In in H. now apply elem_of_map_to_list in H. }
  assert (Hdom : forall k v, In (k, v) (map_to_list c) -> k ∈ dom c).
  { intros k v H. apply elem_of_dom. exists v. now apply Hin. }
  destruct (symbol_items_fold r g (map_to_list c) ∅ w) as (w' & E & Hh & Hr).
  { intros k v H. apply Hg. now apply Hdom with v. }
  eexists _, w'. split; [exact E|]. repeat split; try assumption.
  - intros k Hk. apply elem_of_dom in Hk as [v Hv]. rewrite Hv.
    apply foldl_insert_hit.
    + apply NoDup_fmap_2_strong; [|apply NoDup_map_to_list].
      intros [k1 v1] [k2 v2] H1 H2 Eg. simpl in Eg.
      apply elem_of_map_to_list in H1, H2.
      assert (k1 = k2) as ->.
      { apply Hinj; [apply elem_of_dom; eauto..|exact Eg]. }
      congruence.
    + apply list_elem_of_In. now apply elem_of_map_to_list.
  - intros s Hs. rewrite foldl_insert_miss; [apply lookup_empty|].
    intros k v Hkv. apply Hs. now apply Hdom with v.
Qed.

(** ** Formatting *)

Section FormatShort.
Context `{Collaborators} `{Formatter}.

(** What [__format__] does with the short-form flag on a Unit that holds a
    container. *)
Lemma format_short_eval (self : loc) (o : UnitObj) (c : UnitsContainer)
    (spec : string) (w : world) :
  heap w !! self = Some o -> _units o = PContainer c ->
  str_contains tilde
    (extract_custom_flags
       (if String.eqb spec "" then default_format (registries w (cls o)) else spec))
  = true ->
  __format__ self spec w
  = if uc_bool c then
      match symbol_items (cls o) (map_to_list c) ∅ w with
      | (Ok c', w1) =>
          let spec' := str_remove tilde
                         (extract_custom_flags
                            (if String.eqb spec ""
                             then default_format (registries w (cls o)) else spec)) in
          (format_unit (registries w (cls o)) (PContainer c') spec',
           {| heap := heap w1; registries := registries w1;
              calls := calls w1 ++ [CallRender (cls o) (PContainer c') spec'] |})
      | (Raise e, w1) => (Raise e, w1)
      end
    else (Ok "", w).
Proof.
  intros Ho Ec Ht. unfold __format__.
  rewrite (bind_ok _ _ _ _ _ (get_unit_ok _ _ _ Ho)).
  rewrite (bind_ok _ _ _ _ _ (get_registry_ok _ _)).
  rewrite Ht, Ec. simpl. destruct (uc_bool c); [|reflexivity]. simpl.
  unfold mbind at 1, M_bind at 1, bind at 1. unfold mret, M_ret, ret.
  destruct (symbol_items (cls o) (map_to_list c) ∅ w) as [[c'|e] w1] eqn:Es.
  - rewrite (bind_ok _ _ _ _ _ Es).
    pose proof (symbol_items_quiet _ _ _ _ _ _ Es) as [R _].
    unfold log. monad_unfold. simpl. now rewrite R.
  - now rewrite (bind_raise _ _ _ _ _ Es).
Qed.

(** X15: [format(u, spec)] with the short-form flag in the effective spec:
    a Unit with the empty container formats as the empty string without
    any call to the registry or the formatter; for any other container the
    symbol of every name is looked up, an error of the lookup propagates,
    and the formatter receives the container of symbols and the spec with
    every flag character removed. *)
Theorem format_short_form (self : loc) (o : UnitObj) (c : UnitsContainer)
    (spec : string) (w : world) :
  heap w !! self = Some o -> _units o = PContainer c ->
  let spec' := extract_custom_flags
                 (if String.eqb spec "" then default_format (registries w (cls o))
                  else spec) in
  str_contains tilde spec' = true ->
  (c = ∅ -> __format__ self spec w = (Ok "", w))
  /\ (c <> ∅ ->
      match symbol_items (cls o) (map_to_list c) ∅ w with
      | (Ok c', w1) =>
          (__format__ self spec w).1
          = format_unit (registries w (cls o)) (PContainer c') (str_remove tilde spec')
          /\ calls (__format__ self spec w).2
             = (calls w1 ++ [CallRender (cls o) (PContainer c') (str_remove tilde spec')])%list
      | (Raise e, w1) => __format__ self spec w = (Raise e, w1)
      end)
  /\ str_contains tilde (str_remove tilde spec') = false.
Proof.
  intros Ho Ec spec' Ht.
  pose proof (format_short_eval self o c spec w Ho Ec Ht) as E.
  split; [|split].
  - intros ->. now rewrite E.
  - intros Hc. destruct (uc_bool c) eqn:Eb.
    + destruct (symbol_items (cls o) (map_to_list c) ∅ w) as [[c'|e] w1];
        rewrite E; [split; reflexivity|reflexivity].
    + now apply uc_bool_empty in Eb.
  - apply str_remove_contains.
Qed.

(** X16: the two formats disagree on a Unit that is dimensionless without
    being empty (a container of radian, or of units that cancel): with the
    short-form flag [format_babel] returns the empty string, whether a
    locale is given or not and without parsing it, while [format] looks up
    the symbols and hands them to the formatter. *)
Theorem format_babel_short_dimensionless (self : loc) (o : UnitObj)
    (c : UnitsContainer) (spec : string) (locale : option string) (kw : kwargs)
    (w w1 : world) :
  heap w !! self = Some o -> _units o = PContainer c -> c <> ∅ ->
  str_contains tilde
    (if String.eqb spec ""
     then extract_custom_flags (default_format (registries w (cls o))) else spec)
  = true ->
  str_contains tilde
    (extract_custom_flags
       (if String.eqb spec "" then default_format (registries w (cls o)) else spec))
  = true ->
  dimensionless self w = (Ok true, w1) ->
  format_babel self spec locale kw w = (Ok "", w1)
  /\ quiet w w1
  /\ match symbol_items (cls o) (map_to_list c) ∅ w with
     | (Ok c', _) =>
         (__format__ self spec w).1
         = format_unit (registries w (cls o)) (PContainer c')
             (str_remove tilde
                (extract_custom_flags
                   (if String.eqb spec "" then default_format (registries w (cls o))
                    else spec)))
     | (Raise e, _) => (__format__ self spec w).1 = Raise e
     end.
Proof.
  intros Ho Ec Hc Htb Htf Ed. split; [|split].
  - unfold format_babel.
    rewrite (bind_ok _ _ _ _ _ (get_unit_ok _ _ _ Ho)).
    rewrite (bind_ok _ _ _ _ _ (get_registry_ok _ _)).
    rewrite Htb. now rewrite (bind_ok _ _ _ _ _ Ed).
  - now apply dimensionless_quiet in Ed.
  - rewrite (format_short_eval self o c spec w Ho Ec Htf).
    destruct (uc_bool c) eqn:Eb; [|now apply uc_bool_empty in Eb].
    destruct (symbol_items (cls o) (map_to_list c) ∅ w) as [[c'|e] w2];
      reflexivity.
Qed.

End FormatShort.

(** ** Unit systems *)

Section SystemsProperties.
Variable _systems : reg_id -> gmap string System.
Variable definition_keys : UnitDefinition -> result (list string).

Lemma add_systems_elem (table : list (string * System)) (uname x : string) :
  forall out : gset string,
  x ∈ add_systems table out uname
  <-> x ∈ out \/ exists sys, In (x, sys) table /\ uname ∈ members sys.
Proof.
  unfold add_systems. induction table as [|[sname sys] rest IH]; intros out; simpl.
  - split; [now left|]. intros [Hx|(sys & [] & _)]. exact Hx.
  - rewrite IH. split.
    + intros [Hx|(sys' & Hin & Hm)].
      * destruct (bool_decide (uname ∈ members sys)) eqn:Eb.
        -- apply elem_of_union in Hx as [Hx|Hx]; [|now left].
           apply elem_of_singleton in Hx as ->. right. exists sys. split; [now left|].
           now apply bool_decide_eq_true in Eb.
        -- now left.
      * right. exists sys'. split; [now right|exact Hm].
    + intros [Hx|(sys' & [[= -> ->]|Hin] & Hm)].
      * left. destruct (bool_decide (uname ∈ members sys)); [|exact Hx].
        apply elem_of_union. now right.
      * left. rewrite bool_decide_eq_true_2 by exact Hm.
        apply elem_of_union. left. now apply elem_of_singleton.
      * right. exists sys'. split; assumption.
Qed.

Lemma systems_fold_elem (table : list (string * System)) (keys : list string)
    (x : string) :
  forall out : gset string,
  x ∈ foldl (add_systems table) out keys
  <-> x ∈ out \/ exists uname sys, In uname keys /\ In (x, sys) table
                                   /\ uname ∈ members sys.
Proof.
  induction keys as [|k rest IH]; intros out; simpl.
  - split; [now left|]. intros [Hx|(u & sys & [] & _)]. exact Hx.
  - rewrite IH, add_systems_elem. split.
    + intros [[Hx|(sys & Hin & Hm)]|(u & sys & Hu & Hin & Hm)].
      * now left.
      * right. exists k, sys. repeat split; [now left|assumption..].
      * right. exists u, sys. repeat split; [now right|assumption..].
    + intros [Hx|(u & sys & [<-|Hu] & Hin & Hm)].
      * left. now left.
      * left. right. exists sys. split; assumption.
      * right. exists u, sys. repeat split; assumption.
Qed.

Lemma systems_eval (self : loc) (o : UnitObj) (c : UnitsContainer) (w : world) :
  heap w !! self = Some o -> _units o = PContainer c ->
  systems _systems definition_keys self w
  = (Ok (foldl (add_systems (map_to_list (_systems (cls o)))) ∅
           (map fst (map_to_list c))), w).
Proof.
  intros Ho Ec. unfold systems.
  rewrite (bind_ok _ _ _ _ _ (get_unit_ok _ _ _ Ho)). now rewrite Ec.
Qed.

Lemma systems_elem (r : reg_id) (c : UnitsContainer) (sname : string) :
  sname ∈ foldl (add_systems (map_to_list (_systems r))) ∅ (map fst (map_to_list c))
  <-> exists uname sys, uname ∈ dom c /\ _systems r !! sname = Some sys
                        /\ uname ∈ members sys.
Proof.
  rewrite systems_fold_elem. split.
  - intros [Hx|(u & sys & Hu & Hin & Hm)]; [now apply not_elem_of_empty in Hx|].
    exists u, sys. repeat split; [|now apply elem_of_map_to_list, list_elem_of_In|exact Hm].
    apply in_map_iff in Hu as ([u' v] & <- & Hv). apply elem_of_dom. exists v.
    now apply elem_of_map_to_list, list_elem_of_In.
  - intros (u & sys & Hu & Hs & Hm). right. exists u, sys. repeat split; [| |exact Hm].
    + apply elem_of_dom in Hu as [v Hv]. apply in_map_iff. exists (u, v).
      split; [reflexivity|]. now apply list_elem_of_In, elem_of_map_to_list.
    + now apply list_elem_of_In, elem_of_map_to_list.
Qed.

(** X17: [u.systems] is the set of the names of the systems of the registry
    that have at least one name of the container of u among their members;
    it is empty for the empty container; it is computed from the table as it
    is at the call, and nothing is cached or changed. *)
Theorem systems_membership (self : loc) (o : UnitObj) (c : UnitsContainer)
    (w : world) :
  heap w !! self = Some o -> _units o = PContainer c ->
  exists S : gset string,
    systems _systems definition_keys self w = (Ok S, w)
    /\ (forall sname,
          sname ∈ S
          <-> exists uname sys, uname ∈ dom c
                                /\ _systems (cls o) !! sname = Some sys
                                /\ uname ∈ members sys)
    /\ (c = ∅ -> S = ∅).
Proof.
  intros Ho Ec. eexists. split; [exact (systems_eval self o c w Ho Ec)|]. split.
  - intros sname. apply systems_elem.
  - intros ->. rewrite map_to_list_empty. reflexivity.
Qed.

End SystemsProperties.

Lemma uc_mul_dom (a b : UnitsContainer) : dom (uc_mul a b) ⊆ dom a ∪ dom b.
Proof.
  intros k Hk. apply elem_of_dom in Hk as [x Hx]. unfold uc_mul in Hx.
  rewrite lookup_merge in Hx. apply elem_of_union.
  destruct (a !! k) as [y|] eqn:Ea; [left; apply elem_of_dom; eauto|].
  destruct (b !! k) as [z|] eqn:Eb; [right; apply elem_of_dom; eauto|].
  discriminate.
Qed.

Section SystemsOfProducts.
Context `{Collaborators}.
Variable _systems : reg_id -> gmap string System.
Variable definition_keys : UnitDefinition -> result (list string).

(** X18: a product belongs to no system that neither factor belongs to: for
    Units A and B of one class, the systems of [A * B] are among the systems
    of A and the systems of B (names that cancel may remove some). *)
Theorem systems_of_product (self other : loc) (A B : UnitObj)
    (a b : UnitsContainer) (w : world) :
  heap w !! self = Some A -> heap w !! other = Some B ->
  cls A = cls B -> _units A = PContainer a -> _units B = PContainer b ->
  exists (l : loc) (w1 : world) (S SA SB : gset string),
    __mul__ self (VUnit other) w = (Ok (VUnit l), w1)
    /\ systems _systems definition_keys l w1 = (Ok S, w1)
    /\ systems _systems definition_keys self w = (Ok SA, w)
    /\ systems _systems definition_keys other w = (Ok SB, w)
    /\ S ⊆ SA ∪ SB.
Proof.
  intros HA HB E Ea Eb.
  set (l := fresh (dom (heap w))).
  set (w1 := store l (fresh_unit (cls A) (PContainer (uc_mul a b))) w).
  assert (Hl : heap w1 !! l = Some (fresh_unit (cls A) (PContainer (uc_mul a b))))
    by apply lookup_insert_eq.
  eexists l, w1, _, _, _. split; [now apply mul_units_eval with B|].
  split; [exact (systems_eval _ _ l _ _ w1 Hl eq_refl)|].
  split; [exact (systems_eval _ _ self A a w HA Ea)|].
  split; [exact (systems_eval _ _ other B b w HB Eb)|].
  intros sname Hs. apply systems_elem in Hs as (u & sys & Hu & Hsys & Hm).
  simpl in Hsys. apply uc_mul_dom in Hu. apply elem_of_union.
  apply elem_of_union in Hu as [Hu|Hu].
  - left. apply systems_elem. exists u, sys. repeat split; assumption.
  - right. apply systems_elem. exists u, sys. rewrite <- E. repeat split; assumption.
Qed.

End SystemsOfProducts.

(** ** Powers and derived Units *)

Section DerivedUnits.
Context `{Collaborators}.



(** X20: the dimensionality of a product is not derived from what is cached
    for its factors: [A * B] starts without a cached value, and its first
    read calls the dimension reduction of the registry once, on the product
    container, and returns what the registry gives. *)
Theorem dimensionality_of_product (self other : loc) (A B : UnitObj)
    (a b d : UnitsContainer) (w : world) :
  heap w !! self = Some A -> heap w !! other = Some B ->
  cls A = cls B -> _units A = PContainer a -> _units B = PContainer b ->
  _get_dimensionality (registries w (cls A)) (PContainer (uc_mul a b)) = Ok d ->
  exists (l : loc) (w1 w2 : world),
    __mul__ self (VUnit other) w = (Ok (VUnit l), w1)
    /\ cached w1 l = None
    /\ dimensionality l w1 = (Ok d, w2)
    /\ calls w2
       = (calls w ++ [CallGetDimensionality (cls A) (PContainer (uc_mul a b)) true])%list
    /\ cached w2 l = Some d.
Proof.
  intros HA HB E Ea Eb Ed.
  set (l := fresh (dom (heap w))).
  set (w1 := store l (fresh_unit (cls A) (PContainer (uc_mul a b))) w).
  assert (Hl : heap w1 !! l = Some (fresh_unit (cls A) (PContainer (uc_mul a b))))
    by apply lookup_insert_eq.
  eexists l, w1, _. split; [now apply mul_units_eval with B|].
  split; [unfold cached; now rewrite Hl|].
  split; [exact (dimensionality_first_read l _ d w1 Hl eq_refl Ed)|].
  split; [reflexivity|].
  unfold cached. simpl. now rewrite lookup_insert_eq.
Qed.

Lemma eq_units_eval (x y : loc) (X Y : UnitObj) (cx cy : UnitsContainer)
    (w : world) :
  heap w !! x = Some X -> heap w !! y = Some Y -> cls X = cls Y ->
  _units X = PContainer cx -> _units Y = PContainer cy ->
  __eq__ x (VUnit y) w = (Ok (uc_eqb cx cy), w).
Proof.
  intros HX HY EXY EX EY.
  pose proof (_check_same_class _ _ _ _ _ HX HY EXY) as Hc.
  pose proof (isinstance_class_same _ _ _ HY) as Hi. rewrite <- EXY in Hi.
  unfold __eq__.
  rewrite (bind_ok _ _ _ _ _ (get_unit_ok _ _ _ HX)).
  rewrite (bind_ok _ _ _ _ _ Hc). rewrite (bind_ok _ _ _ _ _ Hi).
  rewrite (bind_ok _ _ _ _ _ (get_unit_ok _ _ _ HY)).
  rewrite EX, EY. reflexivity.
Qed.

(** X21: a copy is equal to its original and is another object: for a Unit
    u that holds a container, [copy.copy(u) == u] is True, while the array
    hook of u, which replaces only u itself, leaves the copy in place. *)
Theorem copy_equal_not_identical (self : loc) (o : UnitObj) (c : UnitsContainer)
    (w : world) :
  heap w !! self = Some o -> _units o = PContainer c ->
  exists (l : loc) (w1 : world),
    __copy__ self w = (Ok l, w1)
    /\ __eq__ l (VUnit self) w1 = (Ok true, w1)
    /\ __eq__ self (VUnit l) w1 = (Ok true, w1)
    /\ is_ (VUnit l) self = false
    /\ (forall q, substituted self q [VUnit l; VUnit self] = [VUnit l; q]).
Proof.
  intros Ho Ec.
  destruct (copy_unit_eval self o w Ho) as (l & w1 & Hcopy & Hne & Hl & Hself).
  exists l, w1. split; [exact Hcopy|].
  assert (Hid : is_ (VUnit l) self = false) by (simpl; now apply Pos.eqb_neq).
  repeat split.
  - rewrite (eq_units_eval l self _ o c c w1 Hl Hself eq_refl Ec Ec).
    now rewrite uc_eqb_refl.
  - rewrite (eq_units_eval self l o _ c c w1 Hself Hl eq_refl Ec Ec).
    now rewrite uc_eqb_refl.
  - exact Hid.
  - intros q. unfold substituted. simpl in *. now rewrite Hid, Pos.eqb_refl.
Qed.

End DerivedUnits.

(** ** Conversion of values that are not tuples *)

Section FromValues.
Context `{Collaborators}.

(** X22: [from_] and [m_from] on values other than tuples.  A Quantity of
    the registry of the unit is converted as it is, a Unit of that registry
    is first made a unit-magnitude Quantity.  A value that is not
    quantity-like raises, in strict mode, the ValueError that names it, from
    [from_] and from [m_from] alike (the [name] argument is not used); in
    non-strict mode it is multiplied by the unit, so that a number equal to
    1 gives the Quantity of that number, whose magnitude [m_from] returns. *)
Theorem from__conversion (self : loc) (o : UnitObj) (strict : bool) (name : string)
    (w : world) :
  heap w !! self = Some o ->
  (forall m u,
      from_ self (VQuantity (cls o) m u) strict name w
      = (quantity_to w (VQuantity (cls o) m u) (VUnit self) [] [], w))
  /\ (forall l' o',
      heap w !! l' = Some o' -> cls o' = cls o ->
      from_ self (VUnit l') strict name w
      = (quantity_to w (Quantity (cls o) (VNum NInt 1) (_units o')) (VUnit self) [] [], w))
  /\ (forall v s,
      _check self v w = (Ok false, w) -> (forall vs, v <> VTuple vs) ->
      py_str w v = Ok s ->
      from_ self v true name w = (Raise (ValueError (s ++ " must be a Quantity")), w)
      /\ m_from self v true name w
         = (Raise (ValueError (s ++ " must be a Quantity")), w))
  /\ (forall c n,
      Qeq_bool n 1 = true ->
      from_ self (VNum c n) false name w
      = (Ok (VQuantity (cls o) (VNum c n) (_units o)), w)
      /\ m_from self (VNum c n) false name w = (Ok (VNum c n), w)).
Proof.
  intros Ho. destruct (from__dispatch self o strict name w Ho) as (Hq & Hu & _).
  destruct (from__dispatch self o true name w Ho) as (_ & _ & Hs & _).
  destruct (from__dispatch self o false name w Ho) as (_ & _ & _ & Hn).
  split; [exact Hq|split; [exact Hu|split]].
  - intros v s Hc Hv Hstr. pose proof (Hs v s Hc Hv Hstr) as E.
    split; [exact E|]. unfold m_from. now rewrite (bind_raise _ _ _ _ _ E).
  - intros c n Hone.
    assert (E : from_ self (VNum c n) false name w
                = (Ok (VQuantity (cls o) (VNum c n) (_units o)), w)).
    { rewrite (Hn (VNum c n) (_check_plain self o (VNum c n) w Ho)).
      unfold py_mul, __rmul__, __mul__.
      rewrite (bind_ok _ _ _ _ _ (get_unit_ok _ _ _ Ho)).
      rewrite (bind_ok _ _ _ _ _ (_check_plain self o (VNum c n) w Ho)).
      now rewrite Hone. }
    split; [exact E|]. unfold m_from. now rewrite (bind_ok _ _ _ _ _ E).
Qed.

End FromValues.

(** ** Localized formatting with a locale *)


Section FormatWithLocale.
Context `{Collaborators}.


End FormatWithLocale.

(** * The further properties on the small registry *)

Module MoreExamples.
Import Demo DemoMore.
#[local] Existing Instance Demo.collaborators.
#[local] Existing Instance DemoMore.formatter.

Example format_radian :
  (__format__ radian "~" w0).1 = Ok "rad"
  /\ (format_babel radian "~" (Some "fr") [] w0).1 = Ok ""
  /\ (__format__ none "~" w0).1 = Ok ""
  /\ (__format__ meter "" w0).1 = Ok "meter".
Proof. repeat split; vm_compute; reflexivity. Qed.

Example systems_of_units :
  (systems systems_table no_keys meter w0).1 = Ok {[ "SI"; "mks" ]}
  /\ (systems systems_table no_keys foot w0).1 = Ok {[ "imperial" ]}
  /\ (systems systems_table no_keys none w0).1 = Ok ∅.
Proof. repeat split; vm_compute; reflexivity. Qed.

Example unit_of_number :
  (__init__ 0%nat (VNum NInt (5 # 1)) w0).1
  = Raise (TypeError "units must be of type str, Unit or UnitsContainer; not <class 'int'>.")
  /\ (__init__ 0%nat (VNum NFloat (1 # 2)) w0).1
     = Raise (TypeError
                "units must be of type str, Unit or UnitsContainer; not <class 'float'>.")
  /\ (__init__ 0%nat VNone w0).1
     = Raise (TypeError
                "units must be of type str, Unit or UnitsContainer; not <class 'NoneType'>.").
Proof. repeat split; vm_compute; reflexivity. Qed.

Lemma copy_is_fresh_witness :
  exists (l : loc) (w1 : world),
    __copy__ meter w0 = (Ok l, w1) /\ l <> meter /\ calls w1 = calls w0.
Proof.
  destruct (copy_is_fresh meter (unit_of {[ "meter" := 1 ]}) w0 eq_refl)
    as (l & w1 & E & Hne & _ & _ & _ & _ & Hc).
  exists l, w1. repeat split; assumption.
Defined.

Lemma dimensionality_frame_witness :
  heap (dimensionality meter w0).2 !! foot = heap w0 !! foot.
Proof.
  destruct (dimensionality_frame meter (unit_of {[ "meter" := 1 ]}) w0
              (dimensionality meter w0).2 (dimensionality meter w0).1
              eq_refl eq_refl) as (Hframe & _).
  apply Hframe. discriminate.
Defined.

Lemma is_compatible_with_symmetric_witness :
  (is_compatible_with meter (VUnit foot) [] [] w0).1
  = Ok (uc_eqb {[ "[length]" := 1 ]} {[ "[length]" := 1 ]})
  /\ (is_compatible_with foot (VUnit meter) [] [] w0).1
     = Ok (uc_eqb {[ "[length]" := 1 ]} {[ "[length]" := 1 ]}).
Proof.
  exact (is_compatible_with_symmetric meter foot
           (unit_of {[ "meter" := 1 ]}) (unit_of {[ "foot" := 1 ]})
           {[ "[length]" := 1 ]} {[ "[length]" := 1 ]} w0
           eq_refl eq_refl eq_refl eq_refl eq_refl eq_refl).
Defined.

Lemma is_compatible_with_itself_witness :
  (is_compatible_with second (VUnit second) [] [] w0).1 = Ok true.
Proof.
  exact (proj1 (is_compatible_with_itself second (unit_of {[ "second" := 1 ]})
                  {[ "[time]" := 1 ]} w0 eq_refl eq_refl eq_refl)).
Defined.

Lemma is_compatible_with_ignores_kwargs_witness :
  is_compatible_with meter (VUnit second) [] [("n", VNum NInt 1)] w0
  = is_compatible_with meter (VUnit second) [] [] w0.
Proof.
  exact (is_compatible_with_ignores_kwargs meter (unit_of {[ "meter" := 1 ]})
           (VUnit second) [("n", VNum NInt 1)] w0 eq_refl eq_refl).
Defined.

Lemma mul_by_number_witness :
  __mul__ meter (VNum NFloat (2 # 2)) w0
  = (Ok (VQuantity 0%nat (VNum NFloat (2 # 2)) (PContainer {[ "meter" := 1 ]})), w0).
Proof.
  exact (proj1 (mul_by_number meter (unit_of {[ "meter" := 1 ]}) NFloat (2 # 2) w0
                  eq_refl)).
Defined.


Lemma rtruediv_cases_witness :
  __rtruediv__ second (VNum NInt (3 # 1)) w0
  = (Ok (VQuantity 0%nat (VNum NInt (3 # 1))
           (PContainer (uc_pow {[ "second" := 1 ]} (-1 # 1)))), w0)
  /\ __rtruediv__ second (VObject ones) w0
     = (Ok (VQuantity 0%nat (VObject ones)
              (PContainer (uc_pow {[ "second" := 1 ]} (-1 # 1)))), w0)
  /\ __rtruediv__ second (VStr "x") w0 = (Ok VNotImplemented, w0).
Proof.
  destruct (rtruediv_cases second (unit_of {[ "second" := 1 ]}) {[ "second" := 1 ]}
              w0 eq_refl eq_refl) as (Hn & _ & _ & _ & _ & Hv).
  split; [|split].
  - apply Hn. reflexivity.
  - apply Hn. reflexivity.
  - apply (Hv (VStr "x")). reflexivity.
Defined.


Lemma eq_units_witness :
  __eq__ meter (VUnit foot) w0
  = (Ok (uc_eqb {[ "meter" := 1 ]} {[ "foot" := 1 ]}), w0)
  /\ __eq__ meter (VUnit meter) w0 = (Ok true, w0).
Proof.
  destruct (eq_units meter foot (unit_of {[ "meter" := 1 ]}) (unit_of {[ "foot" := 1 ]})
              {[ "meter" := 1 ]} {[ "foot" := 1 ]} w0
              eq_refl eq_refl eq_refl eq_refl eq_refl) as (E1 & _ & _ & E2 & _).
  split; assumption.
Defined.

Lemma array_ufunc_operands_witness :
  Forall (fun a => is_ a meter = false)
    (substituted meter (Quantity 0%nat (VNum NInt 1) (PContainer {[ "meter" := 1 ]}))
       [VUnit meter; VNum NInt (3 # 1); VUnit meter]).
Proof.
  assert (Hb : Forall (bound w0)
                 ([VUnit meter; VNum NInt (3 # 1); VUnit meter] ++ map snd ([] : kwargs))%list).
  { repeat constructor; now exists (unit_of {[ "meter" := 1 ]}). }
  exact (proj1 (proj2 (proj2
           (array_ufunc_operands meter (unit_of {[ "meter" := 1 ]}) multiply "__call__"
              [VUnit meter; VNum NInt (3 # 1); VUnit meter] [] w0 eq_refl Hb)))).
Defined.

Lemma symbol_items_exponents_witness :
  exists (c' : UnitsContainer) (w' : world),
    symbol_items 0%nat (map_to_list ({[ "meter" := 1 ]} : UnitsContainer)) ∅ w0
    = (Ok c', w')
    /\ c' !! "m" = Some 1.
Proof.
  destruct (symbol_items_exponents 0%nat (fun _ => "m") {[ "meter" := 1 ]} w0)
    as (c' & w' & E & _ & _ & Hk & _).
  - intros k Hk. rewrite dom_singleton_L in Hk.
    apply elem_of_singleton in Hk as ->. reflexivity.
  - intros k1 k2 H1 H2 _. rewrite dom_singleton_L in H1, H2.
    apply elem_of_singleton in H1, H2. congruence.
  - exists c', w'. split; [exact E|].
    rewrite (Hk "meter"); [reflexivity|].
    rewrite dom_singleton_L. now apply elem_of_singleton.
Defined.

Lemma format_short_form_witness :
  __format__ none "~" w0 = (Ok "", w0).
Proof.
  destruct (@format_short_form collaborators formatter none (unit_of ∅) ∅ "~" w0
              eq_refl eq_refl eq_refl)
    as (Hempty & _).
  now apply Hempty.
Defined.

Lemma format_babel_short_dimensionless_witness :
  format_babel radian "~" (Some "fr") [] w0 = (Ok "", (dimensionless radian w0).2).
Proof.
  refine (proj1 (@format_babel_short_dimensionless collaborators formatter radian
                   (unit_of {[ "radian" := 1 ]}) {[ "radian" := 1 ]} "~" (Some "fr") []
                   w0 (dimensionless radian w0).2 eq_refl eq_refl _ eq_refl eq_refl
                   eq_refl)).
  intros E. apply (f_equal (fun m : UnitsContainer => m !! "radian")) in E.
  rewrite lookup_singleton_eq, lookup_empty in E. discriminate.
Defined.

Lemma systems_membership_witness :
  exists S : gset string,
    systems systems_table no_keys foot w0 = (Ok S, w0)
    /\ ("imperial" ∈ S
        <-> exists uname sys, uname ∈ dom ({[ "foot" := 1 ]} : UnitsContainer)
                              /\ systems_table 0%nat !! "imperial" = Some sys
                              /\ uname ∈ members sys).
Proof.
  destruct (systems_membership systems_table no_keys foot (unit_of {[ "foot" := 1 ]})
              {[ "foot" := 1 ]} w0 eq_refl eq_refl) as (S & E & Hm & _).
  exists S. split; [exact E|apply Hm].
Defined.

Lemma systems_of_product_witness :
  exists (l : loc) (w1 : world) (S SA SB : gset string),
    __mul__ meter (VUnit foot) w0 = (Ok (VUnit l), w1)
    /\ systems systems_table no_keys l w1 = (Ok S, w1)
    /\ systems systems_table no_keys meter w0 = (Ok SA, w0)
    /\ systems systems_table no_keys foot w0 = (Ok SB, w0)
    /\ S ⊆ SA ∪ SB.
Proof.
  exact (systems_of_product systems_table no_keys meter foot
           (unit_of {[ "meter" := 1 ]}) (unit_of {[ "foot" := 1 ]})
           {[ "meter" := 1 ]} {[ "foot" := 1 ]} w0
           eq_refl eq_refl eq_refl eq_refl eq_refl).
Defined.


Lemma dimensionality_of_product_witness :
  exists (l : loc) (w1 w2 : world),
    __mul__ meter (VUnit second) w0 = (Ok (VUnit l), w1)
    /\ cached w1 l = None
    /\ dimensionality l w1 = (Ok {[ "[length]" := 1; "[time]" := 1 ]}, w2).
Proof.
  assert (Hreg : _get_dimensionality (registries w0 0%nat)
                   (PContainer (uc_mul {[ "meter" := 1 ]} {[ "second" := 1 ]}))
                 = Ok {[ "[length]" := 1; "[time]" := 1 ]})
    by (vm_compute; reflexivity).
  destruct (dimensionality_of_product meter second
              (unit_of {[ "meter" := 1 ]}) (unit_of {[ "second" := 1 ]})
              {[ "meter" := 1 ]} {[ "second" := 1 ]}
              {[ "[length]" := 1; "[time]" := 1 ]} w0
              eq_refl eq_refl eq_refl eq_refl eq_refl Hreg)
    as (l & w1 & w2 & E & Hc & Hd & _).
  exists l, w1, w2. repeat split; assumption.
Defined.

Lemma copy_equal_not_identical_witness :
  exists (l : loc) (w1 : world),
    __copy__ meter w0 = (Ok l, w1)
    /\ __eq__ l (VUnit meter) w1 = (Ok true, w1)
    /\ is_ (VUnit l) meter = false.
Proof.
  destruct (copy_equal_not_identical meter (unit_of {[ "meter" := 1 ]})
              {[ "meter" := 1 ]} w0 eq_refl eq_refl) as (l & w1 & E & He & _ & Hi & _).
  exists l, w1. repeat split; assumption.
Defined.


Lemma from__conversion_witness :
  from_ kilometer (VNum NInt (5 # 1)) true "value" w0
  = (Raise (ValueError "5 must be a Quantity"), w0)
  /\ m_from kilometer (VNum NInt 1) false "value" w0 = (Ok (VNum NInt 1), w0).
Proof.
  destruct (from__conversion kilometer (unit_of {[ "kilometer" := 1 ]}) true "value" w0
              eq_refl) as (_ & _ & Hs & _).
  destruct (from__conversion kilometer (unit_of {[ "kilometer" := 1 ]}) false "value" w0
              eq_refl) as (_ & _ & _ & Hn).
  split.
  - apply (Hs (VNum NInt (5 # 1)) "5"); [reflexivity|discriminate|reflexivity].
  - apply (Hn NInt 1). reflexivity.
Defined.

End MoreExamples.
